(** * imageapi: the text-overlay renderers of [api/generate-images.ts]

    A shallow embedding of the TypeScript module [api/generate-images.ts]
    (drawing primitive, animal renderer, brain renderer, request handler)
    together with the small part of the JavaScript run time the module
    relies on: numbers and their string conversion, JSON values, property
    enumeration, truthiness, relational comparison, the 2D canvas text state
    and promise combination. *)

From Stdlib Require Import ZArith List String Ascii Bool Lia Permutation.
From Stdlib Require Import Floats.SpecFloat.
Import ListNotations.
#[local] Set Warnings "-register-all".
Open Scope string_scope.
Open Scope Z_scope.

(** ** JavaScript numbers *)

Module Num.

(** A JavaScript number is an IEEE-754 binary64 value. *)
Definition number := spec_float.

Definition prec : Z := 53.
Definition emax : Z := 1024.

Definition NaN : number := S754_nan.

(** The number denoted by an integer literal of the source. *)
Definition of_Z (z : Z) : number := binary_normalize prec emax z 0 false.

(** [a > b] on numbers: false as soon as one side is NaN. *)
Definition gt (a b : number) : bool := SFltb b a.

(** [a >= b] on numbers. *)
Definition ge (a b : number) : bool := SFleb b a.

(** [a <= b] on numbers. *)
Definition le (a b : number) : bool := SFleb a b.

Definition is_nan (a : number) : bool :=
  match a with S754_nan => true | _ => false end.

Definition is_finite (a : number) : bool :=
  match a with S754_zero _ | S754_finite _ _ _ => true | _ => false end.

(** *** Decimal digits *)

Definition digit_char (d : Z) : ascii := ascii_of_N (48 + Z.to_N d).

Fixpoint digits_fuel (fuel : nat) (z : Z) (acc : string) : string :=
  match fuel with
  | O => acc
  | S fuel' =>
      let acc' := String (digit_char (z mod 10)) acc in
      if z <? 10 then acc' else digits_fuel fuel' (z / 10) acc'
  end.

(** The decimal representation of a non-negative integer. *)
Definition decimal (z : Z) : string :=
  digits_fuel (S (Z.to_nat (Z.log2 z))) z "".

Fixpoint zeros (n : nat) : string :=
  match n with O => "" | S n' => String "0" (zeros n') end.

(** *** Number::toString, radix 10

    For a positive finite [x = m * 2^e] the algorithm of ECMA-262 picks
    integers [n], [k], [s] with [10^(k-1) <= s < 10^k], [s * 10^(n-k)]
    rounding to [x], and [k] as small as possible; among several [s] the
    one closest to [x] (the even one on a tie). *)

Section Shortest.
Variables (m : positive) (e : Z).

(** Everything is scaled by [2^sh] so that [x] and the two half-gaps to
    its neighbours are integers. *)
Definition sh : Z := Z.max 0 (2 - e).
Definition Xs : Z := Zpos m * 2 ^ (e + sh).
Definition Dn : Z := 2 ^ sh.
Definition half_up : Z := 2 ^ (e + sh - 1).
Definition half_down : Z :=
  if (Zpos m =? 2 ^ (prec - 1)) && (3 - emax - prec <? e)
  then 2 ^ (e + sh - 2) else 2 ^ (e + sh - 1).

(** Smallest [j >= 1] with [x * 10^j >= 1], for [x < 1]. *)
Fixpoint first_digit_pos (fuel : nat) (j : Z) : Z :=
  match fuel with
  | O => j
  | S fuel' => if Dn <=? Xs * 10 ^ j then j else first_digit_pos fuel' (j + 1)
  end.

(** [n0] with [10^(n0-1) <= x < 10^n0]. *)
Definition decimal_exponent : Z :=
  if Dn <=? Xs then Z.of_nat (String.length (decimal (Xs / Dn)))
  else 1 - first_digit_pos 400 1.

(** [10^t] as a fraction. *)
Definition pow10_frac (t : Z) : Z * Z :=
  if 0 <=? t then (10 ^ t, 1) else (1, 10 ^ (- t)).

(** Does [s * 10^t] round to [x] (round to nearest, ties to even)? *)
Definition rounds_to_x (s t : Z) : bool :=
  let '(pn, pd) := pow10_frac t in
  let v := s * pn * Dn in
  let lo := (Xs - half_down) * pd in
  let hi := (Xs + half_up) * pd in
  if Z.even (Zpos m) then (lo <=? v) && (v <=? hi)
  else (lo <? v) && (v <? hi).

Definition distance (s t : Z) : Z :=
  let '(pn, pd) := pow10_frac t in Z.abs (s * pn * Dn - Xs * pd).

(** The best [k]-digit candidate, if there is one. *)
Definition candidate (n0 k : Z) : option (Z * Z) :=
  let t := n0 - k in
  let '(pn, pd) := pow10_frac t in
  let s_lo := (Xs * pd) / (Dn * pn) in
  let s_hi := s_lo + 1 in
  let norm s := if s =? 10 ^ k then (n0 + 1, 10 ^ (k - 1)) else (n0, s) in
  match rounds_to_x s_lo t, rounds_to_x s_hi t with
  | true, true =>
      match distance s_lo t ?= distance s_hi t with
      | Lt => Some (norm s_lo)
      | Gt => Some (norm s_hi)
      | Eq => Some (norm (if Z.even s_lo then s_lo else s_hi))
      end
  | true, false => Some (norm s_lo)
  | false, true => Some (norm s_hi)
  | false, false => None
  end.

Fixpoint shortest_from (fuel : nat) (n0 k : Z) : Z * Z * Z :=
  match fuel with
  | O => (n0, k, 0)
  | S fuel' =>
      match candidate n0 k with
      | Some (n, s) => (n, k, s)
      | None => shortest_from fuel' n0 (k + 1)
      end
  end.

(** [(n, k, s)] of the specification; 17 digits always suffice. *)
Definition shortest : Z * Z * Z := shortest_from 17 decimal_exponent 1.
End Shortest.

(** The digits [s] (there are [k] of them) laid out for exponent [n]. *)
Definition layout (n k s : Z) : string :=
  let ds := decimal s in
  if (k <=? n) && (n <=? 21) then ds ++ zeros (Z.to_nat (n - k))
  else if (0 <? n) && (n <=? 21) then
    substring 0 (Z.to_nat n) ds ++ "." ++ substring (Z.to_nat n) (Z.to_nat (k - n)) ds
  else if (-6 <? n) && (n <=? 0) then "0." ++ zeros (Z.to_nat (- n)) ++ ds
  else
    let ex := n - 1 in
    let sign := if 0 <=? ex then "+" else "-" in
    let mant := if k =? 1 then ds
                else substring 0 1 ds ++ "." ++ substring 1 (Z.to_nat (k - 1)) ds in
    mant ++ "e" ++ sign ++ decimal (Z.abs ex).

Definition to_string (x : number) : string :=
  match x with
  | S754_nan => "NaN"
  | S754_zero _ => "0"
  | S754_infinity s => if s then "-Infinity" else "Infinity"
  | S754_finite sg m e =>
      let '(n, k, s) := shortest m e in
      (if sg then "-" else "") ++ layout n k s
  end.

End Num.

(** ** JavaScript values *)

Module JS.
Import Num.

(** The values a parsed JSON request body is made of.  An object is the
    list of its own enumerable string-keyed properties, in the order
    [[OwnPropertyKeys]] (hence [Object.entries]) yields them.  Strings are
    sequences of code units. *)
Inductive value :=
| VUndefined
| VNull
| VBool (b : bool)
| VNumber (n : number)
| VString (s : string)
| VArray (elems : list value)
| VObject (props : list (string * value)).

(** The values that are not objects. *)
Inductive primitive :=
| PUndefined
| PNull
| PBool (b : bool)
| PNumber (n : number)
| PString (s : string).

Definition primitive_value (p : primitive) : value :=
  match p with
  | PUndefined => VUndefined
  | PNull => VNull
  | PBool b => VBool b
  | PNumber n => VNumber n
  | PString s => VString s
  end.

(** What a [throw] carries: an [Error] instance with its [message], or,
    for what an image loader may reject with besides, a primitive. *)
Inductive thrown :=
| ErrorObject (message : string)
| Thrown (p : primitive).

(** The result of evaluating a statement list: normal or abrupt. *)
Inductive completion (A : Type) :=
| Normal (a : A)
| Throw (t : thrown).
Arguments Normal {A} a.
Arguments Throw {A} t.

Definition TypeError (message : string) : thrown := ErrorObject message.

Fixpoint assoc {A : Type} (key : string) (l : list (string * A)) : option A :=
  match l with
  | [] => None
  | (k, a) :: rest => if String.eqb k key then Some a else assoc key rest
  end.

(** The string ToString yields when it yields one.  Plain objects print
    through [Object.prototype.toString], arrays through
    [Array.prototype.join]. *)
Fixpoint display (v : value) : string :=
  match v with
  | VUndefined => "undefined"
  | VNull => "null"
  | VBool b => if b then "true" else "false"
  | VNumber n => Num.to_string n
  | VString s => s
  | VArray elems =>
      (fix join (l : list value) : string :=
         match l with
         | [] => ""
         | x :: rest =>
             let sx := match x with
                       | VUndefined | VNull => ""
                       | _ => display x
                       end in
             match rest with
             | [] => sx
             | _ => sx ++ "," ++ join rest
             end
         end) elems
  | VObject _ => "[object Object]"
  end.

(** Whether ToPrimitive succeeds.  It looks up [toString] and [valueOf]
    and calls the ones that are callable.  A property of a parsed JSON
    object is never callable, so an own [toString] hides the one of
    [Object.prototype]; [valueOf], own or inherited, never gives a
    primitive; with both of no use the conversion throws.  An array
    joins the conversions of its elements. *)
Fixpoint convertible (v : value) : bool :=
  match v with
  | VArray elems =>
      (fix all (l : list value) : bool :=
         match l with
         | [] => true
         | x :: rest => convertible x && all rest
         end) elems
  | VObject props =>
      match assoc "toString" props with
      | Some _ => false
      | None => true
      end
  | _ => true
  end.

(** ToString, as a template literal applies it. *)
Definition to_string (v : value) : completion string :=
  if convertible v then Normal (display v)
  else Throw (TypeError "Cannot convert object to primitive value").

(** ToPrimitive, as a comparison applies it: [valueOf] of an array or
    plain object returns the object itself, so the conversion falls
    through to [toString]. *)
Definition to_primitive (v : value) : completion value :=
  match v with
  | VArray _ | VObject _ =>
      match to_string v with
      | Normal s => Normal (VString s)
      | Throw t => Throw t
      end
  | _ => Normal v
  end.

(** ToBoolean. *)
Definition truthy (v : value) : bool :=
  match v with
  | VUndefined | VNull => false
  | VBool b => b
  | VNumber (S754_zero _) | VNumber S754_nan => false
  | VNumber _ => true
  | VString s => negb (String.eqb s "")
  | VArray _ | VObject _ => true
  end.

(** Reading the properties [animalData] or [brainData] off a value (as the
    destructuring pattern of the handler does).  Neither name is an index,
    [length], or a member of a built-in prototype, so only a plain object
    can hold it. *)
Definition get_field (v : value) (key : string) : completion value :=
  match v with
  | VUndefined =>
      Throw (TypeError ("Cannot destructure property '" ++ key ++ "' of 'req.body' as it is undefined."))
  | VNull =>
      Throw (TypeError ("Cannot destructure property '" ++ key ++ "' of 'req.body' as it is null."))
  | VObject props =>
      Normal (match assoc key props with Some x => x | None => VUndefined end)
  | _ => Normal VUndefined
  end.

Fixpoint indexed {A : Type} (i : Z) (l : list A) : list (string * A) :=
  match l with
  | [] => []
  | a :: rest => (decimal i, a) :: indexed (i + 1) rest
  end.

Fixpoint code_units (s : string) : list value :=
  match s with
  | EmptyString => []
  | String c rest => VString (String c "") :: code_units rest
  end.

(** [Object.entries]. *)
Definition Object_entries (v : value) : completion (list (string * value)) :=
  match v with
  | VUndefined | VNull => Throw (TypeError "Cannot convert undefined or null to object")
  | VBool _ | VNumber _ => Normal []
  | VString s => Normal (indexed 0 (code_units s))
  | VArray elems => Normal (indexed 0 elems)
  | VObject props => Normal props
  end.

(** The property names every object literal inherits from
    [Object.prototype]; each resolves to a function or (for [__proto__])
    an object, none of which has an [x], [y] or [align] property. *)
Definition Object_prototype_keys : list string :=
  [ "constructor"; "__defineGetter__"; "__defineSetter__"; "hasOwnProperty";
    "__lookupGetter__"; "__lookupSetter__"; "isPrototypeOf";
    "propertyIsEnumerable"; "toString"; "valueOf"; "__proto__";
    "toLocaleString" ].

(** The result of [table[key]] on an object literal. *)
Inductive lookup (A : Type) :=
| Own (a : A)
| Inherited
| Absent.
Arguments Own {A} a.
Arguments Inherited {A}.
Arguments Absent {A}.

Definition get_property {A : Type} (table : list (string * A)) (key : string) : lookup A :=
  match assoc key table with
  | Some a => Own a
  | None =>
      if existsb (String.eqb key) Object_prototype_keys then Inherited else Absent
  end.

(** The part of the engine the module cannot see into. *)
Class Engine := {
  (** StringToNumber, the numeric value of a string *)
  StringToNumber : string -> number
}.

Section WithEngine.
Context {engine : Engine}.

(** ToNumber; an array or a plain object goes through the string it
    prints as.  The module converts canvas coordinates only, which are
    numbers or [undefined]. *)
Definition to_number (v : value) : number :=
  match v with
  | VUndefined => NaN
  | VNull => of_Z 0
  | VBool b => if b then of_Z 1 else of_Z 0
  | VNumber n => n
  | VString s => StringToNumber s
  | VArray _ | VObject _ => StringToNumber (display v)
  end.

(** IsLessThan with the right operand converted first, as [a > b] asks
    for; [None] is the specification's [undefined]. *)
Definition is_less_than (x y : value) : completion (option bool) :=
  match to_primitive y with
  | Throw t => Throw t
  | Normal py =>
      match to_primitive x with
      | Throw t => Throw t
      | Normal px =>
          Normal
            match px, py with
            | VString a, VString b => Some (String.ltb a b)
            | _, _ =>
                match SFcompare (to_number px) (to_number py) with
                | Some Lt => Some true
                | Some _ => Some false
                | None => None
                end
            end
      end
  end.

(** The operator [a > b]. *)
Definition js_gt (a b : value) : completion bool :=
  match is_less_than b a with
  | Normal (Some true) => Normal true
  | Normal _ => Normal false
  | Throw t => Throw t
  end.
End WithEngine.

(** [err instanceof Error ? err.message : String(err)] *)
Definition message_or_string (err : thrown) : string :=
  match err with
  | ErrorObject message => message
  | Thrown p => display (primitive_value p)
  end.

End JS.

(** ** The 2D canvas *)

Module Canvas.
Import Num JS.

(** A decoded image: its size and its pixel data (never inspected). *)
Record Image := { width : Z; height : Z; bitmap : list Z }.

(** The text and shadow attributes of a drawing context. *)
Record DrawingState := {
  font : string;
  fillStyle : string;
  textAlign : string;
  textBaseline : string;
  shadowColor : string;
  shadowBlur : number;
  shadowOffsetX : number;
  shadowOffsetY : number
}.

(** What has been painted: each text run is kept with the attributes that
    were in force when it was painted. *)
Inductive DrawOp :=
| DrawImage (img : Image) (dx dy : number)
| FillText (text : string) (x y : number) (st : DrawingState).

(** A context: its current attributes and the layers painted so far, oldest
    first. *)
Record Context2D := { state : DrawingState; painted : list DrawOp }.

(** [canvas.getContext('2d')] on a fresh canvas. *)
Definition getContext : Context2D :=
  {| state := {| font := "10px sans-serif"; fillStyle := "#000000";
                 textAlign := "start"; textBaseline := "alphabetic";
                 shadowColor := "rgba(0, 0, 0, 0)"; shadowBlur := of_Z 0;
                 shadowOffsetX := of_Z 0; shadowOffsetY := of_Z 0 |};
     painted := [] |}.

(** *** Attribute updates *)

Definition st_font (v : string) (st : DrawingState) : DrawingState :=
  {| font := v; fillStyle := fillStyle st; textAlign := textAlign st;
     textBaseline := textBaseline st; shadowColor := shadowColor st;
     shadowBlur := shadowBlur st; shadowOffsetX := shadowOffsetX st;
     shadowOffsetY := shadowOffsetY st |}.

Definition st_fillStyle (v : string) (st : DrawingState) : DrawingState :=
  {| font := font st; fillStyle := v; textAlign := textAlign st;
     textBaseline := textBaseline st; shadowColor := shadowColor st;
     shadowBlur := shadowBlur st; shadowOffsetX := shadowOffsetX st;
     shadowOffsetY := shadowOffsetY st |}.

Definition st_textAlign (v : string) (st : DrawingState) : DrawingState :=
  {| font := font st; fillStyle := fillStyle st; textAlign := v;
     textBaseline := textBaseline st; shadowColor := shadowColor st;
     shadowBlur := shadowBlur st; shadowOffsetX := shadowOffsetX st;
     shadowOffsetY := shadowOffsetY st |}.

Definition st_textBaseline (v : string) (st : DrawingState) : DrawingState :=
  {| font := font st; fillStyle := fillStyle st; textAlign := textAlign st;
     textBaseline := v; shadowColor := shadowColor st;
     shadowBlur := shadowBlur st; shadowOffsetX := shadowOffsetX st;
     shadowOffsetY := shadowOffsetY st |}.

Definition st_shadowColor (v : string) (st : DrawingState) : DrawingState :=
  {| font := font st; fillStyle := fillStyle st; textAlign := textAlign st;
     textBaseline := textBaseline st; shadowColor := v;
     shadowBlur := shadowBlur st; shadowOffsetX := shadowOffsetX st;
     shadowOffsetY := shadowOffsetY st |}.

Definition st_shadowBlur (v : number) (st : DrawingState) : DrawingState :=
  {| font := font st; fillStyle := fillStyle st; textAlign := textAlign st;
     textBaseline := textBaseline st; shadowColor := shadowColor st;
     shadowBlur := v; shadowOffsetX := shadowOffsetX st;
     shadowOffsetY := shadowOffsetY st |}.

Definition st_shadowOffsetX (v : number) (st : DrawingState) : DrawingState :=
  {| font := font st; fillStyle := fillStyle st; textAlign := textAlign st;
     textBaseline := textBaseline st; shadowColor := shadowColor st;
     shadowBlur := shadowBlur st; shadowOffsetX := v;
     shadowOffsetY := shadowOffsetY st |}.

Definition st_shadowOffsetY (v : number) (st : DrawingState) : DrawingState :=
  {| font := font st; fillStyle := fillStyle st; textAlign := textAlign st;
     textBaseline := textBaseline st; shadowColor := shadowColor st;
     shadowBlur := shadowBlur st; shadowOffsetX := shadowOffsetX st;
     shadowOffsetY := v |}.

Definition update (ctx : Context2D) (f : DrawingState -> DrawingState) : Context2D :=
  {| state := f (state ctx); painted := painted ctx |}.

(** *** The attribute setters

    A canvas keeps its former font or colour when it is given one it
    cannot parse.  The fonts and colours this module assigns are well
    formed (a weight, a size in px and a family; a hexadecimal colour,
    an rgba colour, [transparent]), and for them the three are plain
    assignments. *)
Definition set_font (ctx : Context2D) (v : string) : Context2D :=
  update ctx (st_font v).

Definition set_fillStyle (ctx : Context2D) (v : string) : Context2D :=
  update ctx (st_fillStyle v).

Definition set_shadowColor (ctx : Context2D) (v : string) : Context2D :=
  update ctx (st_shadowColor v).

Definition text_aligns : list string := ["start"; "end"; "left"; "right"; "center"].
Definition text_baselines : list string :=
  ["alphabetic"; "top"; "hanging"; "middle"; "ideographic"; "bottom"].

(** An assignment of anything but one of the keywords is ignored. *)
Definition set_textAlign (ctx : Context2D) (v : value) : Context2D :=
  match v with
  | VString a =>
      if existsb (String.eqb a) text_aligns then update ctx (st_textAlign a) else ctx
  | _ => ctx
  end.

Definition set_textBaseline (ctx : Context2D) (v : string) : Context2D :=
  if existsb (String.eqb v) text_baselines then update ctx (st_textBaseline v) else ctx.

(** A negative or non-finite blur is ignored. *)
Definition set_shadowBlur (ctx : Context2D) (v : number) : Context2D :=
  if is_finite v && ge v (of_Z 0) then update ctx (st_shadowBlur v) else ctx.

(** A non-finite offset is ignored. *)
Definition set_shadowOffsetX (ctx : Context2D) (v : number) : Context2D :=
  if is_finite v then update ctx (st_shadowOffsetX v) else ctx.

Definition set_shadowOffsetY (ctx : Context2D) (v : number) : Context2D :=
  if is_finite v then update ctx (st_shadowOffsetY v) else ctx.

Definition paint (ctx : Context2D) (op : DrawOp) : Context2D :=
  {| state := state ctx; painted := (painted ctx ++ [op])%list |}.

(** [ctx.drawImage(img, dx, dy)] *)
Definition drawImage (ctx : Context2D) (img : Image) (dx dy : number) : Context2D :=
  paint ctx (DrawImage img dx dy).

Section WithEngine.
Context {engine : Engine}.

(** [ctx.fillText(text, x, y)]: nothing is painted when a coordinate is
    not a finite number. *)
Definition fillText (ctx : Context2D) (text : string) (x y : value) : Context2D :=
  let nx := to_number x in
  let ny := to_number y in
  if is_finite nx && is_finite ny then paint ctx (FillText text nx ny (state ctx))
  else ctx.
End WithEngine.

End Canvas.

(** ** Effects: image loading, logging, exceptions, promises *)

Module Eff.
Import Num JS Canvas.

(** What the module does to the outside world, in the order it does it. *)
Inductive event :=
| LoadImage (url : string)
| ConsoleError (label : string) (err : thrown).

(** Which of two pending promises is first to reject when both do. *)
Inductive settle_order := FirstRejectsFirst | SecondRejectsFirst.

(** The world outside: what each image request comes back with, and the
    order in which two failing requests fail. *)
Record Network := {
  fetch : string -> completion Image;
  race : settle_order
}.

(** A computation that may log events and may throw. *)
Definition M (A : Type) : Type := list event -> completion A * list event.

Definition ret {A} (a : A) : M A := fun log => (Normal a, log).
Definition throw {A} (t : thrown) : M A := fun log => (Throw t, log).
Definition lift {A} (c : completion A) : M A := fun log => (c, log).
Definition emit (ev : event) : M unit := fun log => (Normal tt, (log ++ [ev])%list).

Definition bind {A B} (m : M A) (k : A -> M B) : M B :=
  fun log =>
    match m log with
    | (Normal a, log') => k a log'
    | (Throw t, log') => (Throw t, log')
    end.

(** [try { body } catch (err) { handler }] *)
Definition try_catch {A} (body : M A) (handler : thrown -> M A) : M A :=
  fun log =>
    match body log with
    | (Normal a, log') => (Normal a, log')
    | (Throw t, log') => handler t log'
    end.

(** [await loadImage(url)] *)
Definition loadImage (net : Network) (url : string) : M Image :=
  fun log => (fetch net url, (log ++ [LoadImage url])%list).

(** [await Promise.all([p, q])] for two calls of async functions.  Both
    calls are made, in order, before the awaiting function resumes; each
    runs up to its own first [await] at once, and nothing either does
    later is an event.  The combined promise fulfils when both do and
    rejects with the reason of the first to reject. *)
Definition Promise_all {A B} (net : Network) (p : M A) (q : M B) : M (A * B) :=
  fun log =>
    let '(ra, log1) := p log in
    let '(rb, log2) := q log1 in
    (match ra, rb with
     | Normal a, Normal b => Normal (a, b)
     | Throw t, Normal _ => Throw t
     | Normal _, Throw t => Throw t
     | Throw ta, Throw tb =>
         match race net with
         | FirstRejectsFirst => Throw ta
         | SecondRejectsFirst => Throw tb
         end
     end, log2).

(** Running a computation from an empty log. *)
Definition run {A} (m : M A) : completion A * list event := m [].

End Eff.

Declare Scope eff_scope.
Delimit Scope eff_scope with eff.
Notation "x <- m ;; k" := (Eff.bind m (fun x => k))
  (at level 61, m at next level, right associativity) : eff_scope.
Notation "' p <- m ;; k" := (Eff.bind m (fun x => let p := x in k))
  (at level 61, p pattern, m at next level, right associativity) : eff_scope.

(** ** The module [api/generate-images.ts] *)

Module GenerateImages.
Import Num JS Canvas Eff.

(** The engine's PNG encoder: the data URI of the bitmap obtained by
    painting the layers onto a transparent canvas of the given size. *)
Class Png := { encodePNG : Z -> Z -> list DrawOp -> string }.

Section Source.
Context {engine : Engine} {png : Png}.
Open Scope eff_scope.

(** [canvas.toDataURL('image/png')] for the canvas [ctx] draws on. *)
Definition toDataURL (w h : Z) (ctx : Context2D) : string :=
  encodePNG w h (painted ctx).

Definition drawTextWithShadow (ctx : Context2D) (text : string) (x y : value)
    (font fillStyle : string) (textAlign : value) (textBaseline : string)
    : Context2D :=
  let ctx := set_font ctx font in
  let ctx := set_fillStyle ctx fillStyle in
  let ctx := set_textAlign ctx textAlign in
  let ctx := set_textBaseline ctx textBaseline in
  let ctx := set_shadowColor ctx "rgba(0, 0, 0, 0.8)" in
  let ctx := set_shadowBlur ctx (of_Z 10) in
  let ctx := set_shadowOffsetX ctx (of_Z 0) in
  let ctx := set_shadowOffsetY ctx (of_Z 0) in
  let ctx := fillText ctx text x y in
  let ctx := set_shadowColor ctx "transparent" in
  set_shadowBlur ctx (of_Z 0).

(** *** generateAnimalImage *)

Definition fontName : string := "sans-serif".
Definition normalFontSize : number := of_Z 36.
Definition highestFontSize : number := of_Z 40.
Definition normalColor : string := "#FFFFFF".
Definition highestColor : string := "#FFED00".

Definition animal_positions : list (string * (Z * Z)) :=
  [ ("lobo", (120, 280)); ("aguia", (420, 280));
    ("tubarao", (120, 630)); ("gato", (420, 630)) ].

(** One turn of the first loop, on [(highestAnimalName, maxPercentage)]. *)
Definition highest_step (acc : option string * value) (entry : string * value)
    : completion (option string * value) :=
  let '(highestAnimalName, maxPercentage) := acc in
  let '(name, percentage) := entry in
  match js_gt percentage maxPercentage with
  | Throw t => Throw t
  | Normal true => Normal (Some name, percentage)
  | Normal false => Normal (highestAnimalName, maxPercentage)
  end.

Fixpoint highest_from (acc : option string * value) (entries : list (string * value))
    : completion (option string * value) :=
  match entries with
  | [] => Normal acc
  | entry :: rest =>
      match highest_step acc entry with
      | Normal acc' => highest_from acc' rest
      | Throw t => Throw t
      end
  end.

(** The first loop: [highestAnimalName] and [maxPercentage] at its end. *)
Definition find_highest (animalEntries : list (string * value))
    : completion (option string * value) :=
  highest_from (None, VNumber (of_Z (-1))) animalEntries.

(** [name === highestAnimalName] *)
Definition is_highest (highestAnimalName : option string) (name : string) : bool :=
  match highestAnimalName with
  | Some h => String.eqb name h
  | None => false
  end.

Definition animal_font (isHighest : bool) : string :=
  "bold " ++ Num.to_string (if isHighest then highestFontSize else normalFontSize)
    ++ "px " ++ fontName.

Definition animal_color (isHighest : bool) : string :=
  if isHighest then highestColor else normalColor.

(** The body of the second loop. *)
Definition draw_animal_entry (highestAnimalName : option string) (ctx : Context2D)
    (entry : string * value) : completion Context2D :=
  let '(name, percentage) := entry in
  let isHighest := is_highest highestAnimalName name in
  let font := animal_font isHighest in
  let color := animal_color isHighest in
  match JS.to_string percentage with
  | Throw t => Throw t
  | Normal shown =>
      let text := shown ++ "%" in
      match get_property animal_positions name with
      | Own (x, y) =>
          Normal (drawTextWithShadow ctx text (VNumber (of_Z x)) (VNumber (of_Z y))
                    font color (VString "right") "middle")
      | Inherited =>
          Normal (drawTextWithShadow ctx text VUndefined VUndefined
                    font color (VString "right") "middle")
      | Absent =>
          Throw (TypeError "Cannot destructure property 'x' of 'positions[name]' as it is undefined.")
      end
  end.

(** The second loop. *)
Fixpoint draw_animal_entries (highestAnimalName : option string) (ctx : Context2D)
    (entries : list (string * value)) : completion Context2D :=
  match entries with
  | [] => Normal ctx
  | entry :: rest =>
      match draw_animal_entry highestAnimalName ctx entry with
      | Normal ctx' => draw_animal_entries highestAnimalName ctx' rest
      | Throw t => Throw t
      end
  end.

(** Everything after the image has loaded, up to the canvas contents. *)
Definition animal_canvas (img : Image) (data : value) : completion Context2D :=
  let ctx := drawImage getContext img (of_Z 0) (of_Z 0) in
  match Object_entries data with
  | Throw t => Throw t
  | Normal animalEntries =>
      match find_highest animalEntries with
      | Throw t => Throw t
      | Normal (highestAnimalName, _) =>
          draw_animal_entries highestAnimalName ctx animalEntries
      end
  end.

Definition generateAnimalImage (net : Network) (baseImageUrl : string) (data : value)
    : M string :=
  try_catch
    (img <- loadImage net baseImageUrl ;;
     ctx <- lift (animal_canvas img data) ;;
     ret (toDataURL (width img) (height img) ctx))
    (fun err =>
       let errorMessage := message_or_string err in
       throw (ErrorObject ("Error during animal image processing: " ++ errorMessage))).

(** *** generateBrainImage *)

Definition brain_fontSize : number := of_Z 44.
Definition brain_color : string := "#FFFFFF".
Definition brain_font : string :=
  "bold " ++ Num.to_string brain_fontSize ++ "px " ++ fontName.

Definition brain_positions : list (string * (Z * Z * string)) :=
  [ ("pensante", (320, 240, "center")); ("atuante", (320, 780, "center"));
    ("razao", (48, 450, "left")); ("emocao", (600, 450, "right")) ].

(** The body of the loop: the text is built only under [if (pos)]. *)
Definition draw_brain_entry (ctx : Context2D) (entry : string * value)
    : completion Context2D :=
  let '(name, percentage) := entry in
  match get_property brain_positions name with
  | Own (x, y, align) =>
      match JS.to_string percentage with
      | Throw t => Throw t
      | Normal shown =>
          Normal (drawTextWithShadow ctx (shown ++ "%") (VNumber (of_Z x))
                    (VNumber (of_Z y)) brain_font brain_color (VString align) "middle")
      end
  | Inherited =>
      match JS.to_string percentage with
      | Throw t => Throw t
      | Normal shown =>
          Normal (drawTextWithShadow ctx (shown ++ "%") VUndefined VUndefined
                    brain_font brain_color VUndefined "middle")
      end
  | Absent => Normal ctx
  end.

Fixpoint draw_brain_entries (ctx : Context2D) (entries : list (string * value))
    : completion Context2D :=
  match entries with
  | [] => Normal ctx
  | entry :: rest =>
      match draw_brain_entry ctx entry with
      | Normal ctx' => draw_brain_entries ctx' rest
      | Throw t => Throw t
      end
  end.

Definition brain_canvas (img : Image) (data : value) : completion Context2D :=
  let ctx := drawImage getContext img (of_Z 0) (of_Z 0) in
  match Object_entries data with
  | Throw t => Throw t
  | Normal brainEntries => draw_brain_entries ctx brainEntries
  end.

Definition generateBrainImage (net : Network) (baseImageUrl : string) (data : value)
    : M string :=
  try_catch
    (img <- loadImage net baseImageUrl ;;
     ctx <- lift (brain_canvas img data) ;;
     ret (toDataURL (width img) (height img) ctx))
    (fun err =>
       let errorMessage := message_or_string err in
       throw (ErrorObject ("Error during brain image processing: " ++ errorMessage))).

Definition BASE_IMAGE_BRAIN_URL : string :=
  "https://i.postimg.cc/LXMYjwtX/Inserir-um-t-tulo-6.png".
Definition BASE_IMAGE_ANIMALS_URL : string :=
  "https://i.postimg.cc/0N1sjN2W/Inserir-um-t-tulo-7.png".

(** *** handler *)

Record Request := { method : string; body : value }.
Record Response := { status : Z; json : value }.

(** The text [Request body must contain "animalData" and "brainData"
    objects.], its four quotation marks written by code. *)
Definition missing_data_message : string :=
  let q := String (ascii_of_N 34) EmptyString in
  "Request body must contain " ++ q ++ "animalData" ++ q ++ " and "
    ++ q ++ "brainData" ++ q ++ " objects.".

Definition handler (net : Network) (req : Request) : M Response :=
  if negb (String.eqb (method req) "POST") then
    ret {| status := 405; json := VObject [("error", VString "Method Not Allowed")] |}
  else
    try_catch
      (animalData <- lift (get_field (body req) "animalData") ;;
       brainData <- lift (get_field (body req) "brainData") ;;
       if negb (truthy animalData) || negb (truthy brainData) then
         ret {| status := 400;
                json := VObject [("error", VString missing_data_message)] |}
       else
         ' (animalImage, brainImage) <-
            Promise_all net
              (generateAnimalImage net BASE_IMAGE_ANIMALS_URL animalData)
              (generateBrainImage net BASE_IMAGE_BRAIN_URL brainData) ;;
         ret {| status := 200;
                json := VObject [("animalImage", VString animalImage);
                                 ("brainImage", VString brainImage)] |})
      (fun error =>
         _ <- emit (ConsoleError "Image generation failed:" error) ;;
         let errorMessage := match error with
                             | ErrorObject message => message
                             | Thrown _ => "An unknown error occurred."
                             end in
         ret {| status := 500;
                json := VObject [("error", VString "Failed to generate images.");
                                 ("details", VString errorMessage)] |}).
End Source.

End GenerateImages.

(** ** What the renderers are expected to paint *)

Module Spec.
Import Num JS Canvas Eff GenerateImages.

(** [m * 2^e] as a number, for values that are not integers. *)
Definition dyadic (m e : Z) : number := binary_normalize prec emax m e false.

Definition number_entry (entry : string * number) : string * value :=
  (fst entry, VNumber (snd entry)).

(** An object all of whose property values are numbers, its properties in
    enumeration order. *)
Definition profile (entries : list (string * number)) : value :=
  VObject (map number_entry entries).

Definition animal_keys : list string := ["lobo"; "aguia"; "tubarao"; "gato"].
Definition brain_keys : list string := ["pensante"; "atuante"; "razao"; "emocao"].

(** The attributes of a text run painted by [drawTextWithShadow] with the
    [middle] baseline. *)
Definition text_style (font fillStyle textAlign : string) : DrawingState :=
  {| font := font; fillStyle := fillStyle; textAlign := textAlign;
     textBaseline := "middle"; shadowColor := "rgba(0, 0, 0, 0.8)";
     shadowBlur := of_Z 10; shadowOffsetX := of_Z 0; shadowOffsetY := of_Z 0 |}.

(** The attributes left behind by [drawTextWithShadow]. *)
Definition shadow_is_reset (ctx : Context2D) : Prop :=
  shadowColor (state ctx) = "transparent" /\ shadowBlur (state ctx) = of_Z 0.

(** The first entry, in the object's enumeration order, whose value exceeds
    -1 and is exceeded by no value of the object. *)
Definition first_greatest (entries : list (string * number)) : option string :=
  option_map fst
    (find (fun entry =>
             gt (snd entry) (of_Z (-1))
             && forallb (fun other => negb (gt (snd other) (snd entry))) entries)
          entries).

Definition emphasis_style : DrawingState :=
  text_style "bold 40px sans-serif" "#FFED00" "right".
Definition normal_style : DrawingState :=
  text_style "bold 36px sans-serif" "#FFFFFF" "right".

(** The text run of one animal entry, [highest] being the emphasised key. *)
Definition animal_layer (highest : option string) (entry : string * number)
    : list DrawOp :=
  match assoc (fst entry) animal_positions with
  | Some (x, y) =>
      [FillText (Num.to_string (snd entry) ++ "%") (of_Z x) (of_Z y)
         (if is_highest highest (fst entry) then emphasis_style else normal_style)]
  | None => []
  end.

(** The text run of one brain entry; a key without a position has none. *)
Definition brain_layer (entry : string * value) : list DrawOp :=
  match assoc (fst entry) brain_positions with
  | Some (x, y, align) =>
      [FillText (display (snd entry) ++ "%") (of_Z x) (of_Z y)
         (text_style "bold 44px sans-serif" "#FFFFFF" align)]
  | None => []
  end.

(** An entry the loop of the brain renderer gets past: its key has no
    position, own or inherited, or its value converts to a string. *)
Definition printable_entry (entry : string * value) : bool :=
  match get_property brain_positions (fst entry) with
  | Absent => true
  | _ => convertible (snd entry)
  end.

Definition brain_printable (entries : list (string * value)) : bool :=
  forallb printable_entry entries.

(** Every value converts to a string, as the animal renderer needs. *)
Definition all_convertible (entries : list (string * value)) : bool :=
  forallb (fun entry => convertible (snd entry)) entries.

(** The emphasised key as the specification words it: the greatest value,
    and on a tie the first in the order lobo, aguia, tubarao, gato. *)
Definition claimed_highest (entries : list (string * number)) : option string :=
  find (fun key =>
          match assoc key entries with
          | Some v => forallb (fun other => ge v (snd other)) entries
          | None => false
          end)
       animal_keys.

(** The font and fill colour of the text run painted at [(x, y)]. *)
Definition style_at (ctx : Context2D) (x y : Z) : option (string * string) :=
  match find (fun op => match op with
                        | FillText _ px py _ => SFeqb px (of_Z x) && SFeqb py (of_Z y)
                        | DrawImage _ _ _ => false
                        end) (painted ctx) with
  | Some (FillText _ _ _ st) => Some (font st, fillStyle st)
  | _ => None
  end.

Definition text_of (op : DrawOp) : list string :=
  match op with
  | FillText text _ _ _ => [text]
  | DrawImage _ _ _ => []
  end.

(** The texts of the runs painted, in paint order. *)
Definition texts (ctx : Context2D) : list string :=
  flat_map text_of (painted ctx).

(** What holds of [highestAnimalName = h] and [maxPercentage = m] once the
    entries [seen] have been visited by the first loop. *)
Definition loop_invariant (seen : list (string * number)) (h : option string)
    (m : number) : Prop :=
  is_nan m = false
  /\ ge m (of_Z (-1)) = true
  /\ (forall entry, In entry seen -> gt (snd entry) m = false)
  /\ match h with
     | None => m = of_Z (-1)
     | Some k =>
         exists before after,
           seen = (before ++ (k, m) :: after)%list
           /\ gt m (of_Z (-1)) = true
           /\ forall entry, In entry before ->
                gt m (snd entry) = true \/ is_nan (snd entry) = true
     end.

(** The number [x] is the integer [z], of magnitude below [2^53]. *)
Definition integral (x : number) (z : Z) : bool :=
  match x with
  | S754_zero _ => z =? 0
  | S754_finite s m e =>
      (e <=? 0) && (Zpos m =? Z.abs z * 2 ^ (- e)) && Bool.eqb s (z <? 0)
      && (Z.abs z <? 2 ^ 53)
  | _ => false
  end.

(** An integer written in decimal, with its sign when negative. *)
Definition signed_decimal (z : Z) : string :=
  (if z <? 0 then "-" else "") ++ decimal (Z.abs z).

Definition is_digit (c : ascii) : bool :=
  (48 <=? Z.of_N (N_of_ascii c)) && (Z.of_N (N_of_ascii c) <=? 57).

Fixpoint all_digits (s : string) : bool :=
  match s with
  | EmptyString => true
  | String c rest => is_digit c && all_digits rest
  end.

Definition strip_minus (s : string) : string :=
  match s with
  | String "-" rest => rest
  | _ => s
  end.

(** An integer followed by a percent sign: an optional minus sign, one or
    more digits, [%]. *)
Definition integer_percent (s : string) : bool :=
  let unsigned := strip_minus s in
  let n := String.length unsigned in
  (2 <=? Z.of_nat n)
  && all_digits (substring 0 (n - 1) unsigned)
  && String.eqb (substring (n - 1) 1 unsigned) "%".

(** The JSON object [{ error: ..., details: ... }] of a failed request. *)
Definition failure_body (details : string) : value :=
  VObject [("error", VString "Failed to generate images."); ("details", VString details)].

(** A field that is missing or holds a falsy value. *)
Definition missing (body : value) (key : string) : Prop :=
  exists v, get_field body key = Normal v /\ truthy v = false.

(** A body that has no such field at all. *)
Definition lacks (body : value) (key : string) : Prop :=
  match body with
  | VObject props => assoc key props = None
  | _ => True
  end.

(** [hay.includes(needle)] *)
Fixpoint includes (hay needle : string) : bool :=
  prefix needle hay
  || match hay with
     | EmptyString => false
     | String _ rest => includes rest needle
     end.

(** One call of the drawing primitive: text, x, y, font, fill style,
    alignment, baseline. *)
Definition text_call : Type :=
  string * value * value * string * string * value * string.

Section WithEngine.
Context {engine : Engine} {png : Png}.

Definition draw_call (ctx : Context2D) (call : text_call) : Context2D :=
  let '(text, x, y, font, fillStyle, textAlign, textBaseline) := call in
  drawTextWithShadow ctx text x y font fillStyle textAlign textBaseline.

(** The emphasis rule as the specification words it. *)
Definition emphasis_as_claimed (img : Image) (entries : list (string * number)) : Prop :=
  forall ctx, animal_canvas img (profile entries) = Normal ctx ->
    forall key x y, In (key, (x, y)) animal_positions ->
      style_at ctx x y
      = Some (if is_highest (claimed_highest entries) key
              then ("bold 40px sans-serif", "#FFED00")
              else ("bold 36px sans-serif", "#FFFFFF")).

(** Every text of the animal image an integer followed by [%]. *)
Definition integer_texts_as_claimed (img : Image) (entries : list (string * number))
    : Prop :=
  forall ctx, animal_canvas img (profile entries) = Normal ctx ->
    forallb integer_percent (texts ctx) = true.

(** A failing brain image always reported as such. *)
Definition brain_failure_as_claimed (net : Network) (req : Request) : Prop :=
  forall animalData brainData err,
    method req = "POST" ->
    get_field (body req) "animalData" = Normal animalData -> truthy animalData = true ->
    get_field (body req) "brainData" = Normal brainData -> truthy brainData = true ->
    fetch net BASE_IMAGE_BRAIN_URL = Throw err ->
    exists details,
      fst (run (handler net req))
      = Normal {| status := 500; json := failure_body details |}
      /\ includes details
           ("Error during brain image processing: " ++ message_or_string err) = true.
End WithEngine.
End Spec.

(** ** Sample inputs *)

Module Sample.
Import Num JS Canvas Eff GenerateImages Spec.

(** No sample below converts a string to a number. *)
Definition engine : Engine := {| StringToNumber := fun _ => NaN |}.

(** A stand-in encoder: the number of layers. *)
Definition png : Png :=
  {| encodePNG := fun _ _ layers =>
       "data:image/png;base64," ++ decimal (Z.of_nat (List.length layers)) |}.

Definition base_image : Image := {| width := 640; height := 900; bitmap := [] |}.

(** Every image loads. *)
Definition online : Network :=
  {| fetch := fun _ => Normal base_image; race := FirstRejectsFirst |}.

(** No image loads, and the first request made is the first to fail. *)
Definition offline : Network :=
  {| fetch := fun _ => Throw (ErrorObject "getaddrinfo ENOTFOUND i.postimg.cc");
     race := FirstRejectsFirst |}.

(** Only the brain image fails to load. *)
Definition brain_offline : Network :=
  {| fetch := fun url =>
       if String.eqb url BASE_IMAGE_BRAIN_URL
       then Throw (ErrorObject "Server responded with 404")
       else Normal base_image;
     race := FirstRejectsFirst |}.

Definition numbers (l : list (string * Z)) : list (string * number) :=
  map (fun entry => (fst entry, of_Z (snd entry))) l.

(** The example of the specification. *)
Definition animals : list (string * number) :=
  numbers [("lobo", 10); ("aguia", 55); ("tubarao", 20); ("gato", 15)].

(** Two entries share the greatest value; [gato] is enumerated first. *)
Definition animals_tied : list (string * number) :=
  numbers [("gato", 50); ("lobo", 50); ("aguia", 0); ("tubarao", 0)].

Definition animals_negative : list (string * number) :=
  numbers [("lobo", -5); ("aguia", -10); ("tubarao", -20); ("gato", -30)].

(** [lobo] is 12.5. *)
Definition animals_fraction : list (string * number) :=
  [("lobo", dyadic 25 (-1)); ("aguia", of_Z 55); ("tubarao", of_Z 20);
   ("gato", dyadic 25 (-1))].

Definition brains : list (string * number) :=
  numbers [("pensante", 60); ("atuante", 40); ("razao", 70); ("emocao", 30)].

(** The object [{ "toString": 5 }], which no conversion to a string or
    to a number accepts. *)
Definition hostile : value := VObject [("toString", VNumber (of_Z 5))].

(** A brain object with two keys the position table does not have; one of
    them is inherited from [Object.prototype], the other holds a value
    that does not convert. *)
Definition brains_extra : list (string * value) :=
  [("pensante", VNumber (of_Z 60)); ("extra", hostile);
   ("constructor", VNumber (of_Z 2)); ("emocao", VNumber (of_Z 30))].

Definition post (body : value) : Request := {| method := "POST"; body := body |}.

Definition full_body : value :=
  VObject [("animalData", profile animals); ("brainData", profile brains)].
End Sample.

(** ** More sample inputs *)

Module MoreSamples.
Import Num JS Canvas Eff GenerateImages Spec.

(** An animal object with a key the position table does not have. *)
Definition animals_unknown : value :=
  VObject [("lobo", VNumber (of_Z 10)); ("urso", VNumber (of_Z 90))].

(** An animal object in which [aguia] holds [{ "toString": 5 }]. *)
Definition animals_hostile : value :=
  VObject [("lobo", VNumber (of_Z 10)); ("aguia", Sample.hostile);
           ("urso", VNumber (of_Z 90))].

(** The brain object [{ "pensante": 60, "emocao": [1, { "toString": null }] }]. *)
Definition brains_hostile : list (string * value) :=
  [("pensante", VNumber (of_Z 60));
   ("emocao", VArray [VNumber (of_Z 1); VObject [("toString", VNull)]])].

(** Data sets that are truthy and have no property to enumerate. *)
Definition empty_body : value :=
  VObject [("animalData", VBool true); ("brainData", VNumber (of_Z 1))].

(** A strict maximum, enumerated last. *)
Definition animals_clear : list (string * number) :=
  Sample.numbers [("gato", 15); ("tubarao", 20); ("lobo", 10); ("aguia", 55)].

Definition get (body : value) : Request := {| method := "GET"; body := body |}.

(** Only the animal image fails to load. *)
Definition animal_offline : Network :=
  {| fetch := fun url =>
       if String.eqb url BASE_IMAGE_ANIMALS_URL
       then Throw (Thrown (PString "socket hang up"))
       else Normal Sample.base_image;
     race := SecondRejectsFirst |}.
End MoreSamples.

(** * Properties *)

(** ** The order on numbers *)

Module NumFacts.
Import Num.

Ltac cmp_cases :=
  repeat match goal with
    | |- context [Z.compare ?a ?b] => destruct (Z.compare_spec a b)
    | H : context [Z.compare ?a ?b] |- _ => destruct (Z.compare_spec a b)
    | |- context [Pos.compare_cont Eq ?a ?b] =>
        change (Pos.compare_cont Eq a b) with (Pos.compare a b);
        destruct (Pos.compare_spec a b)
    | H : context [Pos.compare_cont Eq ?a ?b] |- _ =>
        change (Pos.compare_cont Eq a b) with (Pos.compare a b) in H;
        destruct (Pos.compare_spec a b)
    end.

Ltac float_cases a :=
  let m := fresh "m" in let e := fresh "e" in
  destruct a as [[|]|[|]| |[|] m e].

Lemma gt_irrefl (a : number) : gt a a = false.
Proof.
  unfold gt, SFltb, SFcompare. float_cases a; simpl; try reflexivity.
  all: rewrite Z.compare_refl;
    match goal with
    | |- context [Pos.compare_cont Eq ?p ?p] =>
        change (Pos.compare_cont Eq p p) with (Pos.compare p p)
    end; rewrite Pos.compare_refl; reflexivity.
Qed.

Lemma gt_trans (a b c : number) : gt a b = true -> gt b c = true -> gt a c = true.
Proof.
  unfold gt, SFltb, SFcompare.
  float_cases a; float_cases b; simpl; try discriminate;
    float_cases c; simpl; try discriminate; try reflexivity;
    intros H1 H2; cmp_cases; simpl in *; try discriminate; try reflexivity; try (exfalso; lia).
Qed.

(** [a > b] fails and neither is NaN: then [b >= a]. *)
Lemma not_gt_ge (a b : number) :
  gt a b = false -> is_nan a = false -> is_nan b = false -> ge b a = true.
Proof.
  unfold gt, ge, SFltb, SFleb, SFcompare.
  float_cases a; float_cases b; simpl; try discriminate; try reflexivity;
    intros H1 _ _; cmp_cases; simpl in *; try discriminate; try reflexivity;
    try (exfalso; lia).
Qed.

Lemma gt_ge_trans (a b c : number) : gt a b = true -> ge b c = true -> gt a c = true.
Proof.
  unfold gt, ge, SFltb, SFleb, SFcompare.
  float_cases a; float_cases b; simpl; try discriminate;
    float_cases c; simpl; try discriminate; try reflexivity;
    intros H1 H2; cmp_cases; simpl in *; try discriminate; try reflexivity; try (exfalso; lia).
Qed.

Lemma gt_not_nan (a b : number) : gt a b = true -> is_nan a = false /\ is_nan b = false.
Proof.
  unfold gt, SFltb, SFcompare.
  float_cases a; float_cases b; simpl; try discriminate; auto.
Qed.

(** [a <= b] excludes [a > b]. *)
Lemma ge_not_gt (a b : number) : ge b a = true -> gt a b = false.
Proof.
  unfold gt, ge, SFltb, SFleb, SFcompare.
  float_cases a; float_cases b; simpl; try discriminate; try reflexivity;
    intros H1; cmp_cases; simpl in *; try discriminate; try reflexivity; try (exfalso; lia).
Qed.

Lemma le_not_gt (a b : number) : le a b = true -> gt a b = false.
Proof. exact (ge_not_gt a b). Qed.

Lemma gt_ge (a b : number) : gt a b = true -> ge a b = true.
Proof.
  unfold gt, ge, SFltb, SFleb. destruct (SFcompare b a) as [[| |]|]; congruence.
Qed.

End NumFacts.

(** ** Decimal digits and the string of an integral number *)

Module DecimalFacts.
Import Num.

Lemma append_assoc (a b c : string) : (a ++ b) ++ c = a ++ (b ++ c).
Proof. induction a as [|ch a IH]; cbn; [reflexivity|]. now rewrite IH. Qed.

Lemma append_empty_r (a : string) : a ++ "" = a.
Proof. induction a as [|ch a IH]; cbn; [reflexivity|]. now rewrite IH. Qed.

Lemma digits_fuel_acc fuel : forall z acc,
  digits_fuel fuel z acc = digits_fuel fuel z "" ++ acc.
Proof.
  induction fuel as [|fuel IH]; intros z acc; cbn [digits_fuel]; [reflexivity|].
  destruct (z <? 10); [reflexivity|].
  rewrite IH. rewrite (IH _ (String _ "")).
  now rewrite append_assoc.
Qed.

(** Any fuel that covers the digits gives the same string. *)
Lemma digits_fuel_enough fuel : forall z acc extra,
  0 <= z < 10 ^ Z.of_nat fuel -> (1 <= fuel)%nat ->
  digits_fuel (fuel + extra) z acc = digits_fuel fuel z acc.
Proof.
  induction fuel as [|fuel IH]; intros z acc extra Hz Hfuel; [lia|].
  cbn [digits_fuel Nat.add].
  destruct (Z.ltb_spec z 10) as [Hlt|Hge]; [reflexivity|].
  apply IH.
  - rewrite Nat2Z.inj_succ, Z.pow_succ_r in Hz by lia.
    split; [apply Z.div_pos; lia|].
    apply Z.div_lt_upper_bound; lia.
  - destruct fuel; [|lia]. cbn in Hz. lia.
Qed.

Lemma log2_fuel_enough z : 0 <= z -> z < 10 ^ Z.of_nat (S (Z.to_nat (Z.log2 z))).
Proof.
  intros Hz. rewrite Nat2Z.inj_succ, Z2Nat.id by apply Z.log2_nonneg.
  destruct (Z.eq_dec z 0) as [->|Hnz]; [reflexivity|].
  apply Z.lt_le_trans with (2 ^ Z.succ (Z.log2 z)).
  - apply Z.log2_spec. lia.
  - apply Z.pow_le_mono_l. lia.
Qed.

Lemma decimal_fuel fuel z :
  0 <= z < 10 ^ Z.of_nat fuel -> (1 <= fuel)%nat -> decimal z = digits_fuel fuel z "".
Proof.
  intros Hz Hfuel. unfold decimal.
  set (f0 := S (Z.to_nat (Z.log2 z))).
  assert (H0 : 0 <= z < 10 ^ Z.of_nat f0) by (split; [lia|apply log2_fuel_enough; lia]).
  destruct (Nat.le_ge_cases f0 fuel) as [Hle|Hle].
  - replace fuel with (f0 + (fuel - f0))%nat by lia.
    symmetry. apply digits_fuel_enough; [exact H0|unfold f0; lia].
  - replace f0 with (fuel + (f0 - fuel))%nat by lia.
    now apply digits_fuel_enough.
Qed.

Lemma digits_fuel_length fuel : forall z acc,
  (String.length (digits_fuel fuel z acc) <= fuel + String.length acc)%nat.
Proof.
  induction fuel as [|fuel IH]; intros z acc; cbn [digits_fuel]; [lia|].
  destruct (z <? 10); cbn [String.length]; [lia|].
  specialize (IH (z / 10) (String (digit_char (z mod 10)) acc)).
  cbn [String.length] in IH. lia.
Qed.

(** The number is below the power of ten its digits count. *)
Lemma digits_fuel_bound fuel : forall z acc,
  0 <= z < 10 ^ Z.of_nat fuel -> (1 <= fuel)%nat ->
  z < 10 ^ (Z.of_nat (String.length (digits_fuel fuel z acc))
            - Z.of_nat (String.length acc))
  /\ (String.length acc < String.length (digits_fuel fuel z acc))%nat.
Proof.
  induction fuel as [|fuel IH]; intros z acc Hz Hfuel; [lia|].
  cbn [digits_fuel].
  destruct (Z.ltb_spec z 10) as [Hlt|Hge].
  - cbn [String.length]. split; [|lia].
    replace (Z.of_nat (S (String.length acc)) - Z.of_nat (String.length acc)) with 1 by lia.
    exact Hlt.
  - rewrite Nat2Z.inj_succ, Z.pow_succ_r in Hz by lia.
    assert (Hfuel' : (1 <= fuel)%nat) by (destruct fuel; [cbn in Hz|]; lia).
    destruct (IH (z / 10) (String (digit_char (z mod 10)) acc)) as [Hb Hl].
    + split; [apply Z.div_pos; lia|]. apply Z.div_lt_upper_bound; lia.
    + exact Hfuel'.
    + cbn [String.length] in Hb, Hl. split; [|lia].
      set (len := String.length _) in *.
      replace (Z.of_nat len - Z.of_nat (String.length acc))
        with (Z.succ (Z.of_nat len - Z.of_nat (S (String.length acc)))) by lia.
      rewrite Z.pow_succ_r by lia.
      pose proof (Z.div_mod z 10 ltac:(lia)) as Hdm.
      pose proof (Z.mod_pos_bound z 10 ltac:(lia)) as Hmod.
      lia.
Qed.

Lemma decimal_bound z :
  0 <= z < 10 ^ 16 ->
  z < 10 ^ Z.of_nat (String.length (decimal z))
  /\ 1 <= Z.of_nat (String.length (decimal z)) <= 16.
Proof.
  intros Hz. rewrite (decimal_fuel 16 z) by (cbn; lia).
  destruct (digits_fuel_bound 16 z "" Hz ltac:(lia)) as [Hb Hl].
  pose proof (digits_fuel_length 16 z "") as Hlen.
  cbn [String.length] in *. rewrite Z.sub_0_r in Hb. split; [exact Hb|lia].
Qed.

Lemma append_zeros_succ s n : s ++ zeros (S n) = (s ++ "0") ++ zeros n.
Proof. cbn [zeros]. now rewrite append_assoc. Qed.

Lemma decimal_times_ten z : 1 <= z -> decimal (10 * z) = decimal z ++ "0".
Proof.
  intros Hz.
  set (f := S (Z.to_nat (Z.log2 z))).
  assert (Hf : 0 <= z < 10 ^ Z.of_nat f) by (split; [lia|apply log2_fuel_enough; lia]).
  rewrite (decimal_fuel (S f) (10 * z)), (decimal_fuel f z); try (unfold f; lia); try exact Hf.
  2:{ rewrite Nat2Z.inj_succ, Z.pow_succ_r by lia. lia. }
  cbn [digits_fuel].
  destruct (Z.ltb_spec (10 * z) 10) as [Hlt|_]; [lia|].
  replace (10 * z / 10) with z by (rewrite Z.mul_comm, Z.div_mul; lia).
  replace ((10 * z) mod 10) with 0 by (rewrite Z.mul_comm, Z.mod_mul; lia).
  apply digits_fuel_acc.
Qed.

(** Trailing zeros of an integer are trailing zeros of its digits. *)
Lemma decimal_shift t : forall z,
  1 <= z -> decimal (z * 10 ^ Z.of_nat t) = decimal z ++ zeros t.
Proof.
  induction t as [|t IH]; intros z Hz.
  - cbn [zeros Z.of_nat]. now rewrite Z.pow_0_r, Z.mul_1_r, append_empty_r.
  - rewrite Nat2Z.inj_succ, Z.pow_succ_r by lia.
    replace (z * (10 * 10 ^ Z.of_nat t)) with (10 * z * 10 ^ Z.of_nat t) by ring.
    rewrite IH by lia. rewrite decimal_times_ten by lia.
    symmetry. apply append_zeros_succ.
Qed.
End DecimalFacts.

Module IntegerString.
Import Num DecimalFacts.

Section Integral.
(** The number [m * 2^e] is the integer [z], below [10^16]. *)
Variables (m : positive) (e z : Z).
Hypothesis He : e <= 0.
Hypothesis Hm : Zpos m = z * 2 ^ (- e).
Hypothesis Hz : z < 10 ^ 16.

Lemma integral_pos : 1 <= z.
Proof.
  assert (0 < 2 ^ (- e)) by (apply Z.pow_pos_nonneg; lia). nia.
Qed.

Lemma Dn_value : Dn e = 4 * 2 ^ (- e).
Proof.
  unfold Dn, sh. replace (Z.max 0 (2 - e)) with (2 + - e) by lia.
  rewrite Z.pow_add_r by lia. reflexivity.
Qed.

Lemma Dn_large : 4 <= Dn e.
Proof.
  rewrite Dn_value. assert (0 < 2 ^ (- e)) by (apply Z.pow_pos_nonneg; lia). lia.
Qed.

Lemma Xs_value : Xs m e = z * Dn e.
Proof.
  rewrite Dn_value. unfold Xs, sh.
  replace (e + Z.max 0 (2 - e)) with 2 by lia. rewrite Hm.
  change (2 ^ 2) with 4. ring.
Qed.

Lemma half_up_value : half_up e = 2.
Proof.
  unfold half_up, sh. now replace (e + Z.max 0 (2 - e) - 1) with 1 by lia.
Qed.

Lemma half_down_bounds : 1 <= half_down m e <= 2.
Proof.
  unfold half_down, sh.
  replace (e + Z.max 0 (2 - e) - 2) with 0 by lia.
  replace (e + Z.max 0 (2 - e) - 1) with 1 by lia.
  destruct (_ && _); cbn; lia.
Qed.

(** Only the integer itself rounds to it. *)
Lemma rounds_exact s t : 0 <= t -> rounds_to_x m e s t = (s * 10 ^ t =? z).
Proof.
  intros Ht. unfold rounds_to_x, pow10_frac.
  destruct (Z.leb_spec 0 t) as [_|]; [|lia].
  rewrite Xs_value, half_up_value.
  pose proof half_down_bounds as Hd. pose proof Dn_large as HD.
  set (u := s * 10 ^ t). set (D := Dn e) in *. set (d := half_down m e) in *.
  destruct (Z.eqb_spec u z) as [->|Hne].
  - destruct (Z.even (Z.pos m)); apply andb_true_intro; split;
      first [apply Z.leb_le | apply Z.ltb_lt]; lia.
  - destruct (Z.even (Z.pos m)); apply andb_false_iff;
      (destruct (Z.lt_ge_cases u z);
       [left|right]; first [apply Z.leb_gt | apply Z.ltb_ge]; nia).
Qed.

Section Digits.
(** [z] has at most [n0] digits. *)
Variable n0 : Z.
Hypothesis Hn0 : z < 10 ^ n0.

Lemma candidate_value k :
  1 <= k <= n0 ->
  candidate m e n0 k
  = if z mod 10 ^ (n0 - k) =? 0 then Some (n0, z / 10 ^ (n0 - k)) else None.
Proof.
  intros Hk. pose proof integral_pos as Hpos. pose proof Dn_large as HD.
  assert (Hp : 0 < 10 ^ (n0 - k)) by (apply Z.pow_pos_nonneg; lia).
  unfold candidate.
  replace (pow10_frac (n0 - k)) with (10 ^ (n0 - k), 1)
    by (unfold pow10_frac; destruct (Z.leb_spec 0 (n0 - k)); [reflexivity|lia]).
  rewrite !rounds_exact by lia.
  rewrite Z.mul_1_r, Xs_value, (Z.mul_comm z), Z.div_mul_cancel_l by lia.
  pose proof (Z.div_mod z (10 ^ (n0 - k)) ltac:(lia)) as Hdm.
  pose proof (Z.mod_pos_bound z (10 ^ (n0 - k)) Hp) as Hmod.
  set (q := z / 10 ^ (n0 - k)) in *. set (r := z mod 10 ^ (n0 - k)) in *.
  assert (Hq : q < 10 ^ k).
  { assert (Hsplit : 10 ^ n0 = 10 ^ k * 10 ^ (n0 - k))
      by (rewrite <- Z.pow_add_r by lia; f_equal; lia).
    assert (0 < 10 ^ k) by (apply Z.pow_pos_nonneg; lia). nia. }
  destruct (Z.eqb_spec ((q + 1) * 10 ^ (n0 - k)) z) as [Habs|_]; [nia|].
  destruct (Z.eqb_spec r 0) as [Hr|Hr];
    destruct (Z.eqb_spec (q * 10 ^ (n0 - k)) z) as [Hqz|Hqz]; try nia.
  - destruct (Z.eqb_spec q (10 ^ k)); [lia|reflexivity].
  - reflexivity.
Qed.

(** The search stops at the digits of [z] without its trailing
    zeros. *)
Lemma shortest_from_value fuel : forall k,
  1 <= k <= n0 -> n0 - k < Z.of_nat fuel ->
  exists k',
    k <= k' <= n0
    /\ z = z / 10 ^ (n0 - k') * 10 ^ (n0 - k')
    /\ shortest_from m e fuel n0 k = (n0, k', z / 10 ^ (n0 - k')).
Proof.
  induction fuel as [|fuel IH]; intros k Hk Hfuel; [lia|].
  cbn [shortest_from]. rewrite candidate_value by lia.
  pose proof (Z.div_mod z (10 ^ (n0 - k))) as Hdm.
  destruct (Z.eqb_spec (z mod 10 ^ (n0 - k)) 0) as [Hr|Hr].
  - exists k. split; [lia|]. split; [|reflexivity].
    assert (0 < 10 ^ (n0 - k)) by (apply Z.pow_pos_nonneg; lia). nia.
  - destruct (Z.eq_dec k n0) as [->|Hne].
    + exfalso. apply Hr. rewrite Z.sub_diag, Z.pow_0_r. apply Z.mod_1_r.
    + destruct (IH (k + 1)) as (k' & Hk' & Hdiv & Hrun); [lia|lia|].
      exists k'. split; [lia|]. split; [exact Hdiv|exact Hrun].
Qed.
End Digits.

(** An integral number prints as the decimal digits of the integer. *)
Lemma integral_to_string s :
  Num.to_string (S754_finite s m e) = (if s then "-" else "") ++ decimal z.
Proof.
  pose proof integral_pos as Hpos. pose proof Dn_large as HD.
  destruct (decimal_bound z ltac:(lia)) as [Hbound Hlen].
  set (n0 := Z.of_nat (String.length (decimal z))) in *.
  assert (Hexp : decimal_exponent m e = n0).
  { unfold decimal_exponent. rewrite Xs_value.
    destruct (Z.leb_spec (Dn e) (z * Dn e)) as [_|]; [|nia].
    rewrite Z.div_mul by lia. reflexivity. }
  destruct (shortest_from_value n0 Hbound 17 1 ltac:(lia) ltac:(lia))
    as (k & Hk & Hdiv & Hrun).
  unfold Num.to_string, shortest. rewrite Hexp, Hrun. f_equal.
  unfold layout.
  destruct (Z.leb_spec k n0) as [_|]; [|lia].
  destruct (Z.leb_spec n0 21) as [_|]; [|lia].
  cbn [andb].
  assert (Hq : 1 <= z / 10 ^ (n0 - k)).
  { assert (0 < 10 ^ (n0 - k)) by (apply Z.pow_pos_nonneg; lia).
    destruct (Z.le_gt_cases 1 (z / 10 ^ (n0 - k))); [assumption|nia]. }
  rewrite <- decimal_shift by exact Hq.
  rewrite Z2Nat.id by lia. now rewrite <- Hdiv.
Qed.
End Integral.

Import Spec.

Lemma digit_char_is_digit d : 0 <= d < 10 -> is_digit (digit_char d) = true.
Proof.
  intros Hd.
  assert (Hcases : d = 0 \/ d = 1 \/ d = 2 \/ d = 3 \/ d = 4 \/ d = 5 \/ d = 6
                   \/ d = 7 \/ d = 8 \/ d = 9) by lia.
  repeat (destruct Hcases as [->|Hcases]; [reflexivity|]). now subst d.
Qed.

Lemma digits_fuel_all_digits fuel : forall z acc,
  0 <= z -> all_digits acc = true -> all_digits (digits_fuel fuel z acc) = true.
Proof.
  induction fuel as [|fuel IH]; intros z acc Hz Hacc; cbn [digits_fuel]; [exact Hacc|].
  assert (Hnew : all_digits (String (digit_char (z mod 10)) acc) = true).
  { cbn [all_digits]. rewrite digit_char_is_digit, Hacc; [reflexivity|].
    apply Z.mod_pos_bound. lia. }
  destruct (z <? 10); [exact Hnew|].
  apply IH; [apply Z.div_pos; lia|exact Hnew].
Qed.

Lemma decimal_all_digits z : 0 <= z -> all_digits (decimal z) = true.
Proof. intros Hz. now apply digits_fuel_all_digits. Qed.

Lemma decimal_not_empty z : decimal z <> "".
Proof.
  unfold decimal. cbn [digits_fuel].
  destruct (z <? 10); [discriminate|].
  rewrite digits_fuel_acc. destruct (digits_fuel _ _ ""); discriminate.
Qed.

Lemma length_append (a b : string) :
  String.length (a ++ b) = (String.length a + String.length b)%nat.
Proof. induction a as [|c a IH]; cbn; [reflexivity|]. now rewrite IH. Qed.

Lemma substring_prefix (a b : string) : substring 0 (String.length a) (a ++ b) = a.
Proof.
  induction a as [|c a IH]; cbn.
  - destruct b; reflexivity.
  - now rewrite IH.
Qed.

Lemma substring_suffix (a b : string) :
  substring (String.length a) (String.length b) (a ++ b) = b.
Proof.
  induction a as [|c a IH]; cbn; [|exact IH].
  induction b as [|c b IHb]; cbn; [reflexivity|]. now rewrite IHb.
Qed.

(** Digits followed by [%] are an integer followed by [%]. *)
Lemma digits_percent (sign : bool) (ds : string) :
  all_digits ds = true -> ds <> "" ->
  integer_percent ((if sign then "-" else "") ++ ds ++ "%") = true.
Proof.
  intros Hds Hne.
  assert (Hunsigned : strip_minus ((if sign then "-" else "") ++ ds ++ "%") = ds ++ "%").
  { destruct sign; [reflexivity|].
    destruct ds as [|c ds]; [congruence|].
    cbn [all_digits] in Hds. apply andb_true_iff in Hds. destruct Hds as [Hc _].
    cbn [append]. unfold strip_minus.
    destruct c as [[|] [|] [|] [|] [|] [|] [|] [|]]; try reflexivity; discriminate Hc. }
  unfold integer_percent. rewrite Hunsigned, length_append.
  cbn [String.length].
  replace (String.length ds + 1 - 1)%nat with (String.length ds) by lia.
  rewrite substring_prefix, Hds.
  change 1%nat with (String.length "%") at 2.
  rewrite substring_suffix.
  destruct ds; [congruence|]. cbn [String.length].
  apply andb_true_intro. split; [|reflexivity].
  apply andb_true_intro. split; [apply Z.leb_le; lia|reflexivity].
Qed.

(** An integral number prints as the integer, and its text followed by
    [%] is an integer followed by [%]. *)
Lemma integral_text x z :
  integral x z = true ->
  Num.to_string x = signed_decimal z
  /\ integer_percent (Num.to_string x ++ "%") = true.
Proof.
  intros Hint.
  assert (Htext : Num.to_string x = signed_decimal z).
  { destruct x as [s0|s0| |s m e]; try discriminate Hint.
    - cbn [integral] in Hint. apply Z.eqb_eq in Hint. now subst z.
    - cbn [integral] in Hint.
      repeat (apply andb_true_iff in Hint; destruct Hint as [Hint ?]).
      apply Z.leb_le in Hint.
      match goal with H : (_ =? _) = true |- _ => apply Z.eqb_eq in H; rename H into Hm end.
      match goal with H : (_ <? 2 ^ 53) = true |- _ => apply Z.ltb_lt in H; rename H into Hb end.
      match goal with H : Bool.eqb _ _ = true |- _ => apply Bool.eqb_prop in H; rename H into Hs end.
      rewrite (integral_to_string m e (Z.abs z) Hint Hm); [|].
      + unfold signed_decimal. now rewrite Hs.
      + eapply Z.lt_trans; [exact Hb|reflexivity]. }
  split; [exact Htext|].
  rewrite Htext. unfold signed_decimal. rewrite append_assoc.
  apply digits_percent.
  - apply decimal_all_digits. lia.
  - apply decimal_not_empty.
Qed.

(** The integers from -1000 to 1000, as the literals of the source denote
    them, are integral. *)
Lemma literals_integral_checked :
  forallb (fun n => integral (of_Z (Z.of_nat n - 1000)) (Z.of_nat n - 1000))
          (seq 0 2001) = true.
Proof. vm_compute. reflexivity. Qed.

Lemma literals_integral z : -1000 <= z <= 1000 -> integral (of_Z z) z = true.
Proof.
  intros Hz. pose proof literals_integral_checked as Hall.
  rewrite forallb_forall in Hall.
  specialize (Hall (Z.to_nat (z + 1000))).
  rewrite Z2Nat.id in Hall by lia.
  replace (z + 1000 - 1000) with z in Hall by lia.
  apply Hall. apply in_seq. lia.
Qed.
End IntegerString.

(** ** The drawing primitive *)

Module CanvasFacts.
Import Num JS Canvas Eff GenerateImages Spec.

Lemma blur_ten_accepted : is_finite (of_Z 10) && ge (of_Z 10) (of_Z 0) = true.
Proof. reflexivity. Qed.

Lemma blur_zero_accepted : is_finite (of_Z 0) && ge (of_Z 0) (of_Z 0) = true.
Proof. reflexivity. Qed.

Lemma offset_zero_accepted : is_finite (of_Z 0) = true.
Proof. reflexivity. Qed.

Lemma middle_accepted : existsb (String.eqb "middle") text_baselines = true.
Proof. reflexivity. Qed.

(** No setter paints. *)
Lemma painted_set_font ctx v : painted (set_font ctx v) = painted ctx.
Proof. reflexivity. Qed.

Lemma painted_set_fillStyle ctx v : painted (set_fillStyle ctx v) = painted ctx.
Proof. reflexivity. Qed.

Lemma painted_set_shadowColor ctx v : painted (set_shadowColor ctx v) = painted ctx.
Proof. reflexivity. Qed.

Lemma painted_set_textAlign ctx v : painted (set_textAlign ctx v) = painted ctx.
Proof.
  destruct v as [| | | | a | |]; try reflexivity.
  unfold set_textAlign. destruct (existsb _ _); reflexivity.
Qed.

Lemma painted_set_textBaseline ctx v : painted (set_textBaseline ctx v) = painted ctx.
Proof. unfold set_textBaseline. destruct (existsb _ _); reflexivity. Qed.

Lemma painted_set_shadowBlur ctx v : painted (set_shadowBlur ctx v) = painted ctx.
Proof. unfold set_shadowBlur. destruct (_ && _); reflexivity. Qed.

Lemma painted_set_shadowOffsetX ctx v : painted (set_shadowOffsetX ctx v) = painted ctx.
Proof. unfold set_shadowOffsetX. destruct (is_finite v); reflexivity. Qed.

Lemma painted_set_shadowOffsetY ctx v : painted (set_shadowOffsetY ctx v) = painted ctx.
Proof. unfold set_shadowOffsetY. destruct (is_finite v); reflexivity. Qed.

Ltac peel_setters :=
  repeat progress rewrite ?painted_set_font, ?painted_set_fillStyle, ?painted_set_shadowColor,
    ?painted_set_textAlign, ?painted_set_textBaseline, ?painted_set_shadowBlur,
    ?painted_set_shadowOffsetX, ?painted_set_shadowOffsetY.

(** The attributes in force when [drawTextWithShadow] paints. *)
Lemma state_before_fill ctx font fillStyle align :
  existsb (String.eqb align) text_aligns = true ->
  state (set_shadowOffsetY
           (set_shadowOffsetX
              (set_shadowBlur
                 (set_shadowColor
                    (set_textBaseline
                       (set_textAlign (set_fillStyle (set_font ctx font) fillStyle)
                          (VString align)) "middle")
                    "rgba(0, 0, 0, 0.8)") (of_Z 10)) (of_Z 0)) (of_Z 0))
  = text_style font fillStyle align.
Proof.
  intros Hal.
  unfold set_shadowOffsetY, set_shadowOffsetX, set_shadowBlur, set_textBaseline,
    set_textAlign.
  rewrite Hal, middle_accepted, blur_ten_accepted, offset_zero_accepted.
  reflexivity.
Qed.

Section WithEngine.
Context {engine : Engine} {png : Png}.

Lemma fillText_numbers ctx text x y :
  is_finite x = true -> is_finite y = true ->
  fillText ctx text (VNumber x) (VNumber y) = paint ctx (FillText text x y (state ctx)).
Proof.
  intros Hx Hy. unfold fillText.
  change (to_number (VNumber x)) with x. change (to_number (VNumber y)) with y.
  rewrite Hx, Hy. reflexivity.
Qed.

Lemma fillText_undefined ctx text : fillText ctx text VUndefined VUndefined = ctx.
Proof. reflexivity. Qed.

Lemma drawTextWithShadow_reset ctx text x y font fillStyle textAlign textBaseline :
  shadow_is_reset (drawTextWithShadow ctx text x y font fillStyle textAlign textBaseline).
Proof.
  unfold shadow_is_reset, drawTextWithShadow. cbv zeta.
  unfold set_shadowBlur at 1. rewrite blur_zero_accepted.
  split; reflexivity.
Qed.

(** A run with known, finite coordinates and a valid alignment. *)
Lemma drawTextWithShadow_paints ctx text (x y : Z) font fillStyle align :
  existsb (String.eqb align) text_aligns = true ->
  is_finite (of_Z x) = true -> is_finite (of_Z y) = true ->
  painted (drawTextWithShadow ctx text (VNumber (of_Z x)) (VNumber (of_Z y))
             font fillStyle (VString align) "middle")
  = (painted ctx ++ [FillText text (of_Z x) (of_Z y) (text_style font fillStyle align)])%list.
Proof.
  intros Hal Hx Hy.
  unfold drawTextWithShadow. cbv zeta.
  rewrite painted_set_shadowBlur, painted_set_shadowColor.
  rewrite (fillText_numbers _ _ _ _ Hx Hy).
  unfold paint at 1. cbn [painted].
  rewrite (state_before_fill _ _ _ _ Hal).
  peel_setters. reflexivity.
Qed.

(** With an undefined coordinate nothing is painted. *)
Lemma drawTextWithShadow_undefined ctx text font fillStyle textAlign textBaseline :
  painted (drawTextWithShadow ctx text VUndefined VUndefined
             font fillStyle textAlign textBaseline)
  = painted ctx.
Proof.
  unfold drawTextWithShadow. cbv zeta.
  rewrite fillText_undefined.
  peel_setters. reflexivity.
Qed.
End WithEngine.
End CanvasFacts.

(** ** The two drawing loops *)

Module RenderFacts.
Import Num JS Canvas Eff GenerateImages Spec CanvasFacts.

Lemma assoc_In {A} key (l : list (string * A)) a : assoc key l = Some a -> In (key, a) l.
Proof.
  induction l as [|[k b] l IH]; simpl; [discriminate|].
  destruct (String.eqb_spec k key) as [->|_].
  - intros [= ->]. now left.
  - intros H. right. now apply IH.
Qed.

Lemma brain_font_text : brain_font = "bold 44px sans-serif".
Proof. vm_compute. reflexivity. Qed.

Lemma animal_font_highest : animal_font true = "bold 40px sans-serif".
Proof. vm_compute. reflexivity. Qed.

Lemma animal_font_normal : animal_font false = "bold 36px sans-serif".
Proof. vm_compute. reflexivity. Qed.

Section WithEngine.
Context {engine : Engine} {png : Png}.

(** *** Conversions *)

Lemma to_string_convertible v :
  convertible v = true -> JS.to_string v = Normal (display v).
Proof. unfold JS.to_string. now intros ->. Qed.

Lemma to_string_hostile v :
  convertible v = false ->
  JS.to_string v = Throw (TypeError "Cannot convert object to primitive value").
Proof. unfold JS.to_string. now intros ->. Qed.

Lemma to_string_normal v s : JS.to_string v = Normal s -> s = display v.
Proof. unfold JS.to_string. destruct (convertible v); now intros [= <-]. Qed.

(** *** Brain *)

Lemma draw_brain_entry_painted ctx entry ctx' :
  draw_brain_entry ctx entry = Normal ctx' ->
  painted ctx' = (painted ctx ++ brain_layer entry)%list.
Proof.
  destruct entry as [name percentage].
  unfold draw_brain_entry, brain_layer, get_property. cbn [fst snd].
  destruct (assoc name brain_positions) as [[[x y] align]|] eqn:Hpos.
  - destruct (JS.to_string percentage) as [shown|] eqn:Hs; [|discriminate].
    apply to_string_normal in Hs. subst shown. intros [= <-].
    rewrite brain_font_text. unfold brain_color.
    apply assoc_In in Hpos.
    repeat (destruct Hpos as [[= <- <- <- <-]|Hpos];
            [apply drawTextWithShadow_paints; reflexivity|]).
    destruct Hpos.
  - destruct (existsb (String.eqb name) Object_prototype_keys).
    + destruct (JS.to_string percentage) as [shown|]; [|discriminate].
      intros [= <-].
      rewrite drawTextWithShadow_undefined. now rewrite app_nil_r.
    + intros [= <-]. now rewrite app_nil_r.
Qed.

Lemma draw_brain_entry_runs ctx entry :
  printable_entry entry = true -> exists ctx', draw_brain_entry ctx entry = Normal ctx'.
Proof.
  destruct entry as [name percentage].
  unfold printable_entry, draw_brain_entry. cbn [fst snd].
  destruct (get_property brain_positions name) as [[[x y] align]| |];
    intros H; try rewrite (to_string_convertible _ H); eexists; reflexivity.
Qed.

Lemma draw_brain_entry_throws ctx entry :
  printable_entry entry = false ->
  draw_brain_entry ctx entry
  = Throw (TypeError "Cannot convert object to primitive value").
Proof.
  destruct entry as [name percentage].
  unfold printable_entry, draw_brain_entry. cbn [fst snd].
  destruct (get_property brain_positions name) as [[[x y] align]| |];
    intros H; try discriminate; now rewrite (to_string_hostile _ H).
Qed.

Lemma draw_brain_entries_painted entries : forall ctx ctx',
  draw_brain_entries ctx entries = Normal ctx' ->
  painted ctx' = (painted ctx ++ flat_map brain_layer entries)%list.
Proof.
  induction entries as [|entry rest IH]; intros ctx ctx'; simpl.
  - intros [= <-]. now rewrite app_nil_r.
  - destruct (draw_brain_entry ctx entry) as [ctx1|] eqn:H1; [|discriminate].
    intros Hrest. rewrite (IH _ _ Hrest), (draw_brain_entry_painted _ _ _ H1).
    now rewrite <- app_assoc.
Qed.

Lemma draw_brain_entries_runs entries : forall ctx,
  brain_printable entries = true ->
  exists ctx', draw_brain_entries ctx entries = Normal ctx'.
Proof.
  induction entries as [|entry rest IH]; intros ctx; simpl.
  - eexists. reflexivity.
  - intros [He Hrest]%andb_prop.
    destruct (draw_brain_entry_runs ctx entry He) as [ctx1 ->].
    now apply IH.
Qed.

Lemma draw_brain_entries_throws entries : forall ctx,
  brain_printable entries = false ->
  draw_brain_entries ctx entries
  = Throw (TypeError "Cannot convert object to primitive value").
Proof.
  induction entries as [|entry rest IH]; intros ctx; simpl; [discriminate|].
  destruct (printable_entry entry) eqn:He.
  - destruct (draw_brain_entry_runs ctx entry He) as [ctx1 ->].
    cbn [andb]. apply IH.
  - intros _. now rewrite draw_brain_entry_throws.
Qed.

(** *** Animal *)

Lemma draw_animal_entry_painted highest ctx entry :
  In (fst entry) animal_keys ->
  exists ctx',
    draw_animal_entry highest ctx (number_entry entry) = Normal ctx'
    /\ painted ctx' = (painted ctx ++ animal_layer highest entry)%list.
Proof.
  destruct entry as [name percentage].
  unfold draw_animal_entry, animal_layer, get_property, number_entry. cbn [fst snd].
  intros Hkey.
  destruct (assoc name animal_positions) as [[x y]|] eqn:Hpos.
  - change (JS.to_string (VNumber percentage)) with (Normal (Num.to_string percentage)).
    cbv iota. eexists. split; [reflexivity|].
    apply assoc_In in Hpos.
    destruct (is_highest highest name);
      [rewrite animal_font_highest | rewrite animal_font_normal];
      unfold animal_color, highestColor, normalColor, emphasis_style, normal_style;
      repeat (destruct Hpos as [[= <- <- <-]|Hpos];
              [apply drawTextWithShadow_paints; reflexivity|]);
      destruct Hpos.
  - exfalso. unfold animal_keys in Hkey. simpl in Hkey.
    destruct Hkey as [<-|[<-|[<-|[<-|[]]]]]; discriminate Hpos.
Qed.

Lemma draw_animal_entries_painted highest entries ctx :
  Forall (fun entry => In (fst entry) animal_keys) entries ->
  exists ctx',
    draw_animal_entries highest ctx (map number_entry entries) = Normal ctx'
    /\ painted ctx' = (painted ctx ++ flat_map (animal_layer highest) entries)%list.
Proof.
  intros Hkeys. revert ctx.
  induction Hkeys as [|entry rest Hkey _ IH]; intros ctx;
    cbn [map draw_animal_entries flat_map].
  - eexists. split; [reflexivity|]. now rewrite app_nil_r.
  - destruct (draw_animal_entry_painted highest ctx entry Hkey) as (ctx1 & -> & Hp1).
    destruct (IH ctx1) as (ctx' & -> & Hp).
    eexists. split; [reflexivity|].
    rewrite Hp, Hp1. now rewrite <- app_assoc.
Qed.
End WithEngine.
End RenderFacts.

(** ** The first loop of the animal renderer *)

Module HighestFacts.
Import Num JS Canvas Eff GenerateImages Spec NumFacts.

Lemma find_all_fail {A} (f : A -> bool) (l : list A) :
  (forall x, In x l -> f x = false) -> find f l = None.
Proof.
  induction l as [|a l IH]; intros H; simpl; [reflexivity|].
  rewrite (H a (or_introl eq_refl)). apply IH. intros x Hx. apply H. now right.
Qed.

Lemma find_first_pass {A} (f : A -> bool) (l1 l2 : list A) (a : A) :
  (forall x, In x l1 -> f x = false) -> f a = true ->
  find f (l1 ++ a :: l2) = Some a.
Proof.
  induction l1 as [|b l1 IH]; intros H Ha; simpl.
  - now rewrite Ha.
  - rewrite (H b (or_introl eq_refl)). apply IH; [|exact Ha].
    intros x Hx. apply H. now right.
Qed.

Lemma loop_invariant_start : loop_invariant [] None (of_Z (-1)).
Proof.
  repeat split; try reflexivity. intros entry [].
Qed.

Lemma loop_invariant_step seen h m entry :
  loop_invariant seen h m ->
  let '(h', m') := if gt (snd entry) m then (Some (fst entry), snd entry) else (h, m) in
  loop_invariant (seen ++ [entry]) h' m'.
Proof.
  intros (Hnan & Hge & Hseen & Hh).
  destruct entry as [k v]. cbn [fst snd].
  destruct (gt v m) eqn:Hgt.
  - destruct (gt_not_nan _ _ Hgt) as [Hv _].
    assert (Hv1 : gt v (of_Z (-1)) = true) by (eapply gt_ge_trans; eassumption).
    repeat split.
    + exact Hv.
    + now apply gt_ge.
    + intros entry [Hin|[<-|[]]]%in_app_or.
      * destruct (gt (snd entry) v) eqn:Hev; [|reflexivity].
        rewrite <- (Hseen entry Hin). symmetry. eapply gt_trans; eassumption.
      * apply gt_irrefl.
    + exists seen, []. repeat split; [exact Hv1|].
      intros entry Hin.
      destruct (is_nan (snd entry)) eqn:He; [now right|left].
      eapply gt_ge_trans; [exact Hgt|].
      apply not_gt_ge; auto.
  - repeat split; try assumption.
    + intros entry [Hin|[<-|[]]]%in_app_or; auto.
    + destruct h as [k0|]; [|exact Hh].
      destruct Hh as (before & after & -> & Hm & Hbefore).
      exists before, (after ++ [(k, v)])%list. repeat split; try assumption.
      now rewrite <- app_assoc.
Qed.

(** The invariant names the first greatest entry. *)
Lemma loop_invariant_end entries h m :
  loop_invariant entries h m -> h = first_greatest entries.
Proof.
  intros (Hnan & Hge & Hseen & Hh). unfold first_greatest.
  destruct h as [k|].
  - destruct Hh as (before & after & Hsplit & Hm & Hbefore).
    match goal with
    | |- context [find ?f entries] => set (pass := f)
    end.
    rewrite Hsplit.
    rewrite find_first_pass with (a := (k, m)); [reflexivity| |]; unfold pass.
    + intros entry Hin.
      destruct (Hbefore entry Hin) as [Hlow|Hn].
      * apply andb_false_iff. right.
        destruct (forallb _ entries) eqn:Hall; [|reflexivity].
        rewrite forallb_forall in Hall.
        specialize (Hall (k, m)). cbn [snd] in Hall.
        rewrite Hlow in Hall. symmetry. apply Hall.
        rewrite Hsplit. apply in_or_app. right. now left.
      * apply andb_false_iff. left.
        destruct (gt (snd entry) (of_Z (-1))) eqn:Hg; [|reflexivity].
        apply gt_not_nan in Hg. destruct Hg as [Hg _]. congruence.
    + cbn [snd]. rewrite Hm. cbn [andb].
      apply forallb_forall. intros entry Hin. now rewrite (Hseen entry Hin).
  - subst m. rewrite find_all_fail; [reflexivity|].
    intros entry Hin. now rewrite (Hseen entry Hin).
Qed.

Section WithEngine.
Context {engine : Engine}.

Lemma js_gt_numbers a b : js_gt (VNumber a) (VNumber b) = Normal (gt a b).
Proof.
  unfold js_gt, is_less_than, gt, SFltb. cbn [to_primitive].
  change (to_number (VNumber b)) with b. change (to_number (VNumber a)) with a.
  destruct (SFcompare b a) as [[| |]|]; reflexivity.
Qed.

Lemma highest_loop rest : forall seen h m,
  loop_invariant seen h m ->
  exists h' m',
    highest_from (h, VNumber m) (map number_entry rest) = Normal (h', VNumber m')
    /\ loop_invariant (seen ++ rest) h' m'.
Proof.
  induction rest as [|entry rest IH]; intros seen h m Hinv.
  - exists h, m. split; [reflexivity|]. now rewrite app_nil_r.
  - cbn [map highest_from]. unfold highest_step, number_entry at 1.
    cbn [fst snd]. rewrite js_gt_numbers.
    pose proof (loop_invariant_step seen h m entry Hinv) as Hstep.
    destruct (gt (snd entry) m);
      (destruct (IH _ _ _ Hstep) as (h' & m' & Hfold & Hinv');
       exists h', m'; split; [exact Hfold|];
       now rewrite <- app_assoc in Hinv').
Qed.

(** The first loop selects the first greatest entry. *)
Lemma find_highest_first_greatest entries :
  exists m,
    find_highest (map number_entry entries)
    = Normal (first_greatest entries, VNumber m).
Proof.
  unfold find_highest.
  destruct (highest_loop entries [] None (of_Z (-1)) loop_invariant_start)
    as (h & m & -> & Hinv).
  exists m. now apply loop_invariant_end in Hinv as ->.
Qed.
End WithEngine.
End HighestFacts.

(** ** The renderers and the handler *)

Module HandlerFacts.
Import Num JS Canvas Eff GenerateImages Spec.

Section WithEngine.
Context {engine : Engine} {png : Png}.

(** What a renderer settles with, by the image request's outcome. *)
Lemma generateAnimalImage_run net url data log :
  generateAnimalImage net url data log
  = (match fetch net url with
     | Normal img =>
         match animal_canvas img data with
         | Normal ctx => Normal (toDataURL (width img) (height img) ctx)
         | Throw err =>
             Throw (ErrorObject ("Error during animal image processing: "
                                   ++ message_or_string err))
         end
     | Throw err =>
         Throw (ErrorObject ("Error during animal image processing: "
                               ++ message_or_string err))
     end, (log ++ [LoadImage url])%list).
Proof.
  unfold generateAnimalImage, try_catch, bind, loadImage, lift, ret, throw.
  destruct (fetch net url) as [img|err]; [|reflexivity].
  destruct (animal_canvas img data); reflexivity.
Qed.

Lemma generateBrainImage_run net url data log :
  generateBrainImage net url data log
  = (match fetch net url with
     | Normal img =>
         match brain_canvas img data with
         | Normal ctx => Normal (toDataURL (width img) (height img) ctx)
         | Throw err =>
             Throw (ErrorObject ("Error during brain image processing: "
                                   ++ message_or_string err))
         end
     | Throw err =>
         Throw (ErrorObject ("Error during brain image processing: "
                               ++ message_or_string err))
     end, (log ++ [LoadImage url])%list).
Proof.
  unfold generateBrainImage, try_catch, bind, loadImage, lift, ret, throw.
  destruct (fetch net url) as [img|err]; [|reflexivity].
  destruct (brain_canvas img data); reflexivity.
Qed.

(** The handler past its method check and its validation. *)
Lemma handler_renders net req animalData brainData :
  method req = "POST" ->
  get_field (body req) "animalData" = Normal animalData -> truthy animalData = true ->
  get_field (body req) "brainData" = Normal brainData -> truthy brainData = true ->
  fst (run (handler net req))
  = match fst (run (generateAnimalImage net BASE_IMAGE_ANIMALS_URL animalData)),
          fst (run (generateBrainImage net BASE_IMAGE_BRAIN_URL brainData)) with
    | Normal animalImage, Normal brainImage =>
        Normal {| status := 200;
                  json := VObject [("animalImage", VString animalImage);
                                   ("brainImage", VString brainImage)] |}
    | Throw err, Normal _ | Normal _, Throw err =>
        Normal {| status := 500; json := failure_body (message_or_string err) |}
    | Throw first, Throw second =>
        Normal {| status := 500;
                  json := failure_body
                            (message_or_string
                               match race net with
                               | FirstRejectsFirst => first
                               | SecondRejectsFirst => second
                               end) |}
    end.
Proof.
  intros Hm Ha Hta Hb Htb.
  unfold handler, run. rewrite Hm, String.eqb_refl. cbn [negb].
  unfold try_catch, bind, lift, Promise_all.
  rewrite Ha, Hb, Hta, Htb. cbn [negb orb].
  rewrite !generateAnimalImage_run, !generateBrainImage_run. cbn [fst].
  destruct (fetch net BASE_IMAGE_ANIMALS_URL) as [imgA|errA];
    [destruct (animal_canvas imgA animalData)|];
    (destruct (fetch net BASE_IMAGE_BRAIN_URL) as [imgB|errB];
     [destruct (brain_canvas imgB brainData)|]);
    try reflexivity; destruct (race net); reflexivity.
Qed.
End WithEngine.
End HandlerFacts.

(** ** What the canvases hold *)

Module CanvasContents.
Import Num JS Canvas Eff GenerateImages Spec.
Import NumFacts CanvasFacts RenderFacts HighestFacts HandlerFacts.

Lemma keys_known (entries : list (string * number)) keys :
  Permutation (map fst entries) keys ->
  Forall (fun entry => In (fst entry) keys) entries.
Proof.
  intros Hperm. apply Forall_forall. intros entry Hin.
  eapply Permutation_in; [exact Hperm|]. now apply in_map.
Qed.

Lemma animal_layer_texts highest entries :
  Forall (fun entry => In (fst entry) animal_keys) entries ->
  flat_map text_of (flat_map (animal_layer highest) entries)
  = map (fun entry => Num.to_string (snd entry) ++ "%") entries.
Proof.
  induction 1 as [|[name v] rest Hkey _ IH]; [reflexivity|].
  cbn [flat_map map fst snd]. rewrite flat_map_app, IH. f_equal.
  cbn [fst] in Hkey. unfold animal_keys in Hkey.
  destruct Hkey as [<-|[<-|[<-|[<-|[]]]]]; reflexivity.
Qed.

Lemma animal_layer_none_style entries op :
  In op (flat_map (animal_layer None) entries) ->
  exists text x y, op = FillText text x y normal_style.
Proof.
  intros Hin. apply in_flat_map in Hin. destruct Hin as ([name v] & _ & Hop).
  unfold animal_layer in Hop. cbn [fst snd is_highest] in Hop.
  destruct (assoc name animal_positions) as [[x y]|]; [|destruct Hop].
  destruct Hop as [<-|[]]. now eexists _, _, _.
Qed.

Lemma brain_layer_texts (entries : list (string * number)) :
  Forall (fun entry => In (fst entry) brain_keys) entries ->
  flat_map text_of (flat_map brain_layer (map number_entry entries))
  = map (fun entry => Num.to_string (snd entry) ++ "%") entries.
Proof.
  induction 1 as [|[name v] rest Hkey _ IH]; [reflexivity|].
  cbn [flat_map map fst snd]. rewrite flat_map_app, IH. f_equal.
  cbn [fst] in Hkey. unfold brain_keys in Hkey.
  destruct Hkey as [<-|[<-|[<-|[<-|[]]]]]; reflexivity.
Qed.

Lemma brain_layer_style entries op :
  In op (flat_map brain_layer entries) ->
  exists text x y align,
    op = FillText text x y (text_style "bold 44px sans-serif" "#FFFFFF" align).
Proof.
  intros Hin. apply in_flat_map in Hin. destruct Hin as ([name v] & _ & Hop).
  unfold brain_layer in Hop. cbn [fst snd] in Hop.
  destruct (assoc name brain_positions) as [[[x y] align]|]; [|destruct Hop].
  destruct Hop as [<-|[]]. now eexists _, _, _, _.
Qed.

Section WithEngine.
Context {engine : Engine} {png : Png}.

Lemma animal_canvas_painted img entries :
  Forall (fun entry => In (fst entry) animal_keys) entries ->
  exists ctx,
    animal_canvas img (profile entries) = Normal ctx
    /\ painted ctx
       = DrawImage img (of_Z 0) (of_Z 0)
           :: flat_map (animal_layer (first_greatest entries)) entries.
Proof.
  intros Hkeys. unfold animal_canvas, profile. cbn [Object_entries].
  destruct (find_highest_first_greatest entries) as [m ->].
  destruct (draw_animal_entries_painted (first_greatest entries) entries
              (drawImage getContext img (of_Z 0) (of_Z 0)) Hkeys)
    as (ctx & Hrun & Hpainted).
  exists ctx. split; [exact Hrun|]. rewrite Hpainted. reflexivity.
Qed.

Lemma brain_canvas_painted img props ctx :
  brain_canvas img (VObject props) = Normal ctx ->
  painted ctx = DrawImage img (of_Z 0) (of_Z 0) :: flat_map brain_layer props.
Proof.
  unfold brain_canvas. cbn [Object_entries]. intros Hrun.
  now rewrite (draw_brain_entries_painted _ _ _ Hrun).
Qed.

Lemma brain_canvas_runs img props :
  brain_printable props = true ->
  exists ctx,
    brain_canvas img (VObject props) = Normal ctx
    /\ painted ctx = DrawImage img (of_Z 0) (of_Z 0) :: flat_map brain_layer props.
Proof.
  intros Hok.
  destruct (draw_brain_entries_runs props (drawImage getContext img (of_Z 0) (of_Z 0)) Hok)
    as [ctx Hrun].
  exists ctx. split; [exact Hrun|]. now apply brain_canvas_painted.
Qed.

(** Numbers always convert. *)
Lemma profile_printable (entries : list (string * number)) :
  brain_printable (map number_entry entries) = true.
Proof.
  induction entries as [|[name v] rest IH]; [reflexivity|].
  cbn [map brain_printable forallb]. fold (brain_printable (map number_entry rest)).
  rewrite IH, andb_true_r. unfold printable_entry, number_entry. cbn [fst snd].
  now destruct (get_property brain_positions name).
Qed.

(** Whatever the data, a brain canvas holds the base image and text runs
    of the brain layers only. *)
Lemma brain_canvas_layers img data ctx :
  brain_canvas img data = Normal ctx ->
  exists entries,
    painted ctx = DrawImage img (of_Z 0) (of_Z 0) :: flat_map brain_layer entries.
Proof.
  unfold brain_canvas.
  destruct (Object_entries data) as [entries|]; [|discriminate].
  intros Hrun. exists entries.
  now rewrite (draw_brain_entries_painted _ _ _ Hrun).
Qed.

Lemma all_low_no_greatest (entries : list (string * number)) :
  (forall entry, In entry entries -> le (snd entry) (of_Z (-1)) = true) ->
  first_greatest entries = None.
Proof.
  intros Hlow. unfold first_greatest. rewrite find_all_fail; [reflexivity|].
  intros entry Hin. now rewrite (le_not_gt _ _ (Hlow entry Hin)).
Qed.

Lemma texts_painted ctx img layers :
  painted ctx = DrawImage img (of_Z 0) (of_Z 0) :: layers ->
  texts ctx = flat_map text_of layers.
Proof. unfold texts. intros ->. reflexivity. Qed.

(** The shadow is reset after a non-empty run of the animal loop. *)
Lemma draw_animal_entries_reset highest entries : forall ctx ctx',
  entries <> [] ->
  draw_animal_entries highest ctx entries = Normal ctx' ->
  shadow_is_reset ctx'.
Proof.
  induction entries as [|[name percentage] rest IH]; intros ctx ctx' Hne Hrun;
    [congruence|].
  cbn [draw_animal_entries] in Hrun.
  destruct (draw_animal_entry highest ctx (name, percentage)) as [ctx1|] eqn:Hone;
    [|discriminate].
  destruct rest as [|next rest].
  - cbn [draw_animal_entries] in Hrun. injection Hrun as <-.
    unfold draw_animal_entry in Hone.
    destruct (JS.to_string percentage) as [shown|]; [|discriminate].
    destruct (get_property animal_positions name) as [[x y]| |];
      try discriminate; injection Hone as <-; apply drawTextWithShadow_reset.
  - eapply IH; [discriminate|exact Hrun].
Qed.

(** The brain loop keeps a reset shadow reset, skipped entries included. *)
Lemma draw_brain_entries_reset entries : forall ctx ctx',
  draw_brain_entries ctx entries = Normal ctx' ->
  shadow_is_reset ctx -> shadow_is_reset ctx'.
Proof.
  induction entries as [|[name percentage] rest IH]; intros ctx ctx' Hrun Hreset;
    cbn [draw_brain_entries] in Hrun.
  - now injection Hrun as <-.
  - destruct (draw_brain_entry ctx (name, percentage)) as [ctx1|] eqn:Hone;
      [|discriminate].
    apply (IH _ _ Hrun). unfold draw_brain_entry in Hone.
    destruct (get_property brain_positions name) as [[[x y] align]| |];
      try (destruct (JS.to_string percentage) as [shown|]; [|discriminate]);
      injection Hone as <-; try apply drawTextWithShadow_reset; exact Hreset.
Qed.

Lemma shadow_reset_calls calls : forall ctx,
  calls <> [] -> shadow_is_reset (fold_left draw_call calls ctx).
Proof.
  induction calls as [|call rest IH]; intros ctx Hne; [congruence|].
  cbn [fold_left]. destruct rest as [|next rest].
  - cbn [fold_left]. destruct call as [[[[[[text x] y] font] fillStyle] align] base].
    apply drawTextWithShadow_reset.
  - apply IH. discriminate.
Qed.
End WithEngine.
End CanvasContents.

(** ** The claims *)

Module Claims.
Import Num JS Canvas Eff GenerateImages Spec.
Import NumFacts IntegerString CanvasFacts RenderFacts HighestFacts HandlerFacts.
Import CanvasContents.

Section WithEngine.
Context {engine : Engine} {png : Png}.

(** C1, as amended.  For an animal profile with its four numeric values,
    the image is the base image followed by one text run per entry in
    the object's own enumeration order, each at its table position; the
    run of the first entry, in that order, whose value exceeds -1 and is
    exceeded by no other value is painted bold 40px in #FFED00, every
    other run bold 36px in #FFFFFF. *)
Theorem animal_emphasis_first_greatest net url img entries :
  fetch net url = Normal img ->
  Permutation (map fst entries) animal_keys ->
  run (generateAnimalImage net url (profile entries))
  = (Normal (encodePNG (width img) (height img)
               (DrawImage img (of_Z 0) (of_Z 0)
                  :: flat_map (animal_layer (first_greatest entries)) entries)),
     [LoadImage url]).
Proof.
  intros Hload Hperm. unfold run.
  rewrite generateAnimalImage_run, Hload.
  destruct (animal_canvas_painted img entries (keys_known _ _ Hperm))
    as (ctx & -> & Hpainted).
  unfold toDataURL. rewrite Hpainted. reflexivity.
Qed.

(** C2.  Whatever the data and its values, every text run of the brain
    image is painted bold 44px sans-serif in #FFFFFF on the middle
    baseline; for a brain profile with its four numeric values one run
    is painted per entry. *)
Theorem brain_uniform_style img :
  (forall data ctx text x y st,
      brain_canvas img data = Normal ctx ->
      In (FillText text x y st) (painted ctx) ->
      font st = "bold 44px sans-serif"
      /\ fillStyle st = "#FFFFFF"
      /\ textBaseline st = "middle")
  /\ (forall entries,
        Permutation (map fst entries) brain_keys ->
        exists ctx,
          brain_canvas img (profile entries) = Normal ctx
          /\ texts ctx = map (fun entry => Num.to_string (snd entry) ++ "%") entries).
Proof.
  split.
  - intros data ctx text x y st Hrun Hin.
    destruct (brain_canvas_layers img data ctx Hrun) as (entries & Hpainted).
    rewrite Hpainted in Hin.
    destruct Hin as [Hbase|Hin]; [discriminate|].
    apply brain_layer_style in Hin.
    destruct Hin as (text' & x' & y' & align & [= _ _ _ ->]).
    repeat split.
  - intros entries Hperm.
    destruct (brain_canvas_runs img (map number_entry entries)
                (profile_printable entries))
      as (ctx & Hrun & Hpainted).
    exists ctx. split; [exact Hrun|].
    rewrite (texts_painted _ _ _ Hpainted).
    apply brain_layer_texts. now apply keys_known.
Qed.

(** C3.  Every call of the drawing primitive leaves the shadow colour
    transparent and the shadow blur zero, and so does every non-empty
    sequence of calls on one context; the animal loop ends with the
    shadow reset once it has drawn an entry, and the brain loop, run to
    its end, keeps a reset shadow reset across drawn and skipped
    entries alike. *)
Theorem shadow_reset_after_draw :
  (forall ctx call, shadow_is_reset (draw_call ctx call))
  /\ (forall ctx calls, calls <> [] -> shadow_is_reset (fold_left draw_call calls ctx))
  /\ (forall highest ctx entries ctx',
        entries <> [] ->
        draw_animal_entries highest ctx entries = Normal ctx' ->
        shadow_is_reset ctx')
  /\ (forall ctx entries ctx',
        draw_brain_entries ctx entries = Normal ctx' ->
        shadow_is_reset ctx -> shadow_is_reset ctx').
Proof.
  repeat split.
  - destruct call as [[[[[[text x] y] font] fillStyle] align] base].
    apply drawTextWithShadow_reset.
  - destruct call as [[[[[[text x] y] font] fillStyle] align] base].
    apply drawTextWithShadow_reset.
  - now apply shadow_reset_calls.
  - now apply shadow_reset_calls.
  - eapply draw_animal_entries_reset; eassumption.
  - eapply draw_animal_entries_reset; eassumption.
  - eapply draw_brain_entries_reset; eassumption.
  - eapply draw_brain_entries_reset; eassumption.
Qed.

(** C4, as amended.  When the body holds both data sets, the brain base
    image fails to load, and the animal renderer either succeeds or is
    not the first to reject, the response is 500 with [details] the
    message "Error during brain image processing: " followed by the
    underlying message, and has neither an [animalImage] nor a
    [brainImage] field.  Any failure of the animal renderer carries the
    prefix "Error during animal image processing: ". *)
Theorem brain_load_failure_reported net req animalData brainData err :
  method req = "POST" ->
  get_field (body req) "animalData" = Normal animalData -> truthy animalData = true ->
  get_field (body req) "brainData" = Normal brainData -> truthy brainData = true ->
  fetch net BASE_IMAGE_BRAIN_URL = Throw err ->
  (exists image,
      fst (run (generateAnimalImage net BASE_IMAGE_ANIMALS_URL animalData)) = Normal image)
  \/ race net = SecondRejectsFirst ->
  (exists response,
      fst (run (handler net req)) = Normal response
      /\ status response = 500
      /\ json response
         = failure_body ("Error during brain image processing: " ++ message_or_string err)
      /\ get_field (json response) "animalImage" = Normal VUndefined
      /\ get_field (json response) "brainImage" = Normal VUndefined)
  /\ (forall url data t,
        fst (run (generateAnimalImage net url data)) = Throw t ->
        exists cause,
          t = ErrorObject ("Error during animal image processing: " ++ cause)).
Proof.
  intros Hm Ha Hta Hb Htb Hload Hanimal. split.
  - assert (Hbrain : fst (run (generateBrainImage net BASE_IMAGE_BRAIN_URL brainData))
                     = Throw (ErrorObject ("Error during brain image processing: "
                                             ++ message_or_string err))).
    { unfold run. rewrite generateBrainImage_run, Hload. reflexivity. }
    exists {| status := 500;
              json := failure_body ("Error during brain image processing: "
                                      ++ message_or_string err) |}.
    split; [|repeat split].
    rewrite (handler_renders net req animalData brainData Hm Ha Hta Hb Htb), Hbrain.
    destruct Hanimal as [[image ->]|Hrace]; [reflexivity|]. rewrite Hrace.
    destruct (fst (run (generateAnimalImage net BASE_IMAGE_ANIMALS_URL animalData)));
      reflexivity.
  - intros url data t. unfold run. rewrite generateAnimalImage_run. cbn [fst].
    destruct (fetch net url) as [img|cause].
    + destruct (animal_canvas img data) as [ctx|cause]; [discriminate|].
      intros [= <-]. now eexists.
    + intros [= <-]. now eexists.
Qed.

(** X13.  The validation: for a POST request whose body is neither undefined
    nor null and in which [animalData] or [brainData] is absent or
    falsy, the handler answers 400 with the body
    [{ error: 'Request body must contain "animalData" and "brainData" objects.' }],
    requests no image and logs nothing. *)
Theorem missing_data_rejected net req :
  method req = "POST" ->
  missing (body req) "animalData" \/ missing (body req) "brainData" ->
  run (handler net req)
  = (Normal {| status := 400; json := VObject [("error", VString missing_data_message)] |},
     []).
Proof.
  intros Hm Hmissing.
  assert (Hfields : exists a b,
             get_field (body req) "animalData" = Normal a
             /\ get_field (body req) "brainData" = Normal b
             /\ (truthy a = false \/ truthy b = false)).
  { destruct Hmissing as [(v & Hv & Hf)|(v & Hv & Hf)];
      destruct (body req); try discriminate; cbn [get_field] in *;
      eexists _, _; (split; [reflexivity|split; [reflexivity|]]);
      injection Hv as Hv; rewrite Hv; auto. }
  destruct Hfields as (a & b & Ha & Hb & Hfalsy).
  unfold handler, run. rewrite Hm, String.eqb_refl. cbn [negb].
  unfold try_catch, bind, lift. rewrite Ha, Hb.
  destruct Hfalsy as [-> | ->]; [reflexivity|].
  rewrite orb_true_r. reflexivity.
Qed.

(** C5.  The validation is not reached by a POST request without a
    body: [req.body] undefined or null lacks both fields, yet the
    destructuring throws inside the [try] block and the answer is 500
    with the TypeError's message as details, the error being logged;
    the bodies ['abc'], [{}] and [0], which lack both fields as well,
    are answered with the 400 of the validation. *)
Theorem absent_body_not_validated net :
  (lacks VUndefined "animalData" /\ lacks VNull "animalData")
  /\ run (handler net (Sample.post VUndefined))
     = (Normal {| status := 500;
                  json := failure_body
                            "Cannot destructure property 'animalData' of 'req.body' as it is undefined." |},
        [ConsoleError "Image generation failed:"
           (TypeError
              "Cannot destructure property 'animalData' of 'req.body' as it is undefined.")])
  /\ run (handler net (Sample.post VNull))
     = (Normal {| status := 500;
                  json := failure_body
                            "Cannot destructure property 'animalData' of 'req.body' as it is null." |},
        [ConsoleError "Image generation failed:"
           (TypeError
              "Cannot destructure property 'animalData' of 'req.body' as it is null.")])
  /\ Forall (fun body =>
               lacks body "animalData"
               /\ run (handler net (Sample.post body))
                  = (Normal {| status := 400;
                               json := VObject [("error", VString missing_data_message)] |},
                     []))
       [VString "abc"; VObject []; VNumber (of_Z 0)].
Proof.
  split; [split; exact I|].
  split; [reflexivity|]. split; [reflexivity|].
  repeat constructor.
Qed.

(** C6, as amended.  The text of each animal entry is the default
    string conversion of its value followed by [%]: for an integer
    value of magnitude below 2^53 (such are the integer literals from
    -1000 to 1000) the decimal digits of the integer followed by [%],
    and a text with a fraction (12.5 gives "12.5%") when the value is
    not an integer. *)
Theorem animal_text_is_number_string img entries :
  Permutation (map fst entries) animal_keys ->
  (exists ctx,
      animal_canvas img (profile entries) = Normal ctx
      /\ texts ctx = map (fun entry => Num.to_string (snd entry) ++ "%") entries)
  /\ (forall x z, integral x z = true ->
        Num.to_string x = signed_decimal z
        /\ integer_percent (Num.to_string x ++ "%") = true)
  /\ (forall z, -1000 <= z <= 1000 -> integral (of_Z z) z = true)
  /\ Num.to_string (dyadic 25 (-1)) = "12.5".
Proof.
  intros Hperm. pose proof (keys_known _ _ Hperm) as Hkeys.
  split; [|split; [|split]].
  - destruct (animal_canvas_painted img entries Hkeys) as (ctx & Hrun & Hpainted).
    exists ctx. split; [exact Hrun|].
    rewrite (texts_painted _ _ _ Hpainted). now apply animal_layer_texts.
  - exact integral_text.
  - exact literals_integral.
  - vm_compute. reflexivity.
Qed.

(** C7.  In the brain renderer, once the base image has loaded and
    provided the value of every key that the position lookup resolves
    converts to a string, the render returns the encoded image of the
    base image and the runs of the keys with an entry in the position
    table: a key without an entry contributes no text run, a key with
    an entry contributes its run; the loop steps over an entry whose
    key the lookup does not resolve whatever its value, painting
    nothing and raising nothing. *)
Theorem brain_skips_unknown_keys net url img props :
  fetch net url = Normal img ->
  brain_printable props = true ->
  run (generateBrainImage net url (VObject props))
  = (Normal (encodePNG (width img) (height img)
               (DrawImage img (of_Z 0) (of_Z 0) :: flat_map brain_layer props)),
     [LoadImage url])
  /\ (forall name v, assoc name brain_positions = None -> brain_layer (name, v) = [])
  /\ (forall name v x y align,
        assoc name brain_positions = Some (x, y, align) ->
        brain_layer (name, v)
        = [FillText (display v ++ "%") (of_Z x) (of_Z y)
             (text_style "bold 44px sans-serif" "#FFFFFF" align)])
  /\ (forall ctx name v,
        get_property brain_positions name = Absent ->
        draw_brain_entry ctx (name, v) = Normal ctx).
Proof.
  intros Hload Hok. split; [|split; [|split]].
  - unfold run. rewrite generateBrainImage_run, Hload.
    destruct (brain_canvas_runs img props Hok) as (ctx & -> & Hpainted).
    unfold toDataURL. rewrite Hpainted. reflexivity.
  - intros name v Hpos. unfold brain_layer. cbn [fst]. now rewrite Hpos.
  - intros name v x y align Hpos. unfold brain_layer. cbn [fst snd].
    now rewrite Hpos.
  - intros ctx name v Hpos. unfold draw_brain_entry. now rewrite Hpos.
Qed.

(** C9.  In the animal renderer, when each of the four values is at most
    -1, the first loop leaves [highestAnimalName] null, and all four
    entries are painted bold 36px in #FFFFFF. *)
Theorem no_emphasis_when_all_at_most_minus_one img entries :
  Permutation (map fst entries) animal_keys ->
  (forall entry, In entry entries -> le (snd entry) (of_Z (-1)) = true) ->
  find_highest (map number_entry entries) = Normal (None, VNumber (of_Z (-1)))
  /\ exists ctx,
       animal_canvas img (profile entries) = Normal ctx
       /\ texts ctx = map (fun entry => Num.to_string (snd entry) ++ "%") entries
       /\ forall text x y st,
            In (FillText text x y st) (painted ctx) ->
            font st = "bold 36px sans-serif" /\ fillStyle st = "#FFFFFF".
Proof.
  intros Hperm Hlow. pose proof (keys_known _ _ Hperm) as Hkeys.
  pose proof (all_low_no_greatest entries Hlow) as Hnone.
  split.
  { unfold find_highest.
    destruct (highest_loop entries [] None (of_Z (-1)) loop_invariant_start)
      as (h & m & Hrun & Hinv).
    cbn [app] in Hinv. rewrite Hrun.
    pose proof (loop_invariant_end _ _ _ Hinv) as Hh. rewrite Hnone in Hh. subst h.
    destruct Hinv as (_ & _ & _ & ->). reflexivity. }
  destruct (animal_canvas_painted img entries Hkeys) as (ctx & Hrun & Hpainted).
  rewrite Hnone in Hpainted.
  exists ctx. split; [exact Hrun|]. split.
  - rewrite (texts_painted _ _ _ Hpainted). now apply animal_layer_texts.
  - intros text x y st Hin. rewrite Hpainted in Hin.
    destruct Hin as [Hbase|Hin]; [discriminate|].
    apply animal_layer_none_style in Hin.
    destruct Hin as (text' & x' & y' & [= _ _ _ ->]). split; reflexivity.
Qed.

(** C10.  A POST request whose body is undefined or null is answered
    with 500 and the error 'Failed to generate images.', the details
    being the message of the TypeError the destructuring throws; the
    400 answer is given only to a POST request whose body can be
    destructured and in which [animalData] or [brainData] is absent or
    falsy. *)
Theorem no_body_is_server_error net req :
  (method req = "POST" ->
   body req = VUndefined \/ body req = VNull ->
   exists details,
     run (handler net req)
     = (Normal {| status := 500; json := failure_body details |},
        [ConsoleError "Image generation failed:" (TypeError details)]))
  /\ (forall response,
        fst (run (handler net req)) = Normal response ->
        status response = 400 ->
        method req = "POST"
        /\ (missing (body req) "animalData" \/ missing (body req) "brainData")).
Proof.
  split.
  - intros Hm Hbody.
    unfold handler, run. rewrite Hm, String.eqb_refl. cbn [negb].
    unfold try_catch, bind, lift, emit, ret.
    destruct Hbody as [-> | ->]; cbn [get_field]; eexists; reflexivity.
  - intros response Hres H400.
    destruct (String.eqb (method req) "POST") eqn:Hm.
    2:{ unfold handler, run in Hres. rewrite Hm in Hres. cbn [negb ret fst] in Hres.
        injection Hres as <-. discriminate H400. }
    apply String.eqb_eq in Hm. split; [exact Hm|].
    destruct (get_field (body req) "animalData") as [a|ta] eqn:Ha.
    2:{ unfold handler, run in Hres. rewrite Hm, String.eqb_refl in Hres.
        unfold try_catch, bind, lift, emit, ret in Hres. rewrite Ha in Hres.
        cbn [negb fst] in Hres. injection Hres as <-. discriminate H400. }
    destruct (get_field (body req) "brainData") as [b|tb] eqn:Hb.
    2:{ unfold handler, run in Hres. rewrite Hm, String.eqb_refl in Hres.
        unfold try_catch, bind, lift, emit, ret in Hres. rewrite Ha, Hb in Hres.
        cbn [negb fst] in Hres. injection Hres as <-. discriminate H400. }
    destruct (truthy a) eqn:Hta; [|left; now exists a].
    destruct (truthy b) eqn:Htb; [|right; now exists b].
    rewrite (handler_renders net req a b Hm Ha Hta Hb Htb) in Hres.
    destruct (fst (run (generateAnimalImage net BASE_IMAGE_ANIMALS_URL a)));
      destruct (fst (run (generateBrainImage net BASE_IMAGE_BRAIN_URL b)));
      injection Hres as <-; discriminate H400.
Qed.
End WithEngine.
End Claims.

(** ** The claims at sample inputs *)

Module Checks.
Import Num JS Canvas Eff GenerateImages Spec.

#[local] Existing Instance Sample.engine.
#[local] Existing Instance Sample.png.

Lemma tied_keys : Permutation (map fst Sample.animals_tied) animal_keys.
Proof.
  change animal_keys with (["lobo"; "aguia"; "tubarao"] ++ ["gato"])%list.
  apply Permutation_cons_append.
Qed.

(** The example of the specification: [aguia] is the emphasised entry. *)
Example specification_example :
  first_greatest Sample.animals = Some "aguia"
  /\ exists ctx,
       animal_canvas Sample.base_image (profile Sample.animals) = Normal ctx
       /\ texts ctx = ["10%"; "55%"; "20%"; "15%"]
       /\ style_at ctx 420 280 = Some ("bold 40px sans-serif", "#FFED00")
       /\ style_at ctx 120 280 = Some ("bold 36px sans-serif", "#FFFFFF")
       /\ style_at ctx 120 630 = Some ("bold 36px sans-serif", "#FFFFFF")
       /\ style_at ctx 420 630 = Some ("bold 36px sans-serif", "#FFFFFF").
Proof.
  split; [vm_compute; reflexivity|].
  eexists. split; [vm_compute; reflexivity|].
  repeat split; vm_compute; reflexivity.
Qed.

(** With negative values only, the greatest is not emphasised. *)
Example negative_profile_example :
  claimed_highest Sample.animals_negative = Some "lobo"
  /\ first_greatest Sample.animals_negative = None
  /\ exists ctx,
       animal_canvas Sample.base_image (profile Sample.animals_negative) = Normal ctx
       /\ texts ctx = ["-5%"; "-10%"; "-20%"; "-30%"]
       /\ style_at ctx 120 280 = Some ("bold 36px sans-serif", "#FFFFFF").
Proof.
  split; [vm_compute; reflexivity|]. split; [vm_compute; reflexivity|].
  eexists. split; [vm_compute; reflexivity|]. split; vm_compute; reflexivity.
Qed.

(** Number to string conversion on some known values. *)
Example to_string_samples :
  map Num.to_string
    [of_Z 0; of_Z 55; of_Z 100; of_Z (-7); dyadic 25 (-1); dyadic 1 (-2);
     of_Z (10 ^ 21); dyadic 7205759403792794 (-56); S754_nan;
     S754_infinity false; of_Z (2 ^ 60)]
  = ["0"; "55"; "100"; "-7"; "12.5"; "0.25"; "1e+21"; "0.1"; "NaN"; "Infinity";
     "1152921504606847000"].
Proof. vm_compute. reflexivity. Qed.

(** C1 at the tied profile: [gato], enumerated first, is the first greatest. *)
Lemma animal_emphasis_first_greatest_witness :
  fetch Sample.online BASE_IMAGE_ANIMALS_URL = Normal Sample.base_image
  /\ Permutation (map fst Sample.animals_tied) animal_keys
  /\ run (generateAnimalImage Sample.online BASE_IMAGE_ANIMALS_URL
            (profile Sample.animals_tied))
     = (Normal (encodePNG (width Sample.base_image) (height Sample.base_image)
                  (DrawImage Sample.base_image (of_Z 0) (of_Z 0)
                     :: flat_map (animal_layer (first_greatest Sample.animals_tied))
                          Sample.animals_tied)),
        [LoadImage BASE_IMAGE_ANIMALS_URL]).
Proof.
  split; [reflexivity|]. split; [exact tied_keys|].
  apply (Claims.animal_emphasis_first_greatest Sample.online BASE_IMAGE_ANIMALS_URL
           Sample.base_image Sample.animals_tied);
    [reflexivity|exact tied_keys].
Defined.

(** C1 as stated fails at the tied profile: the specification's order
    names [lobo], the code emphasises [gato] and paints [lobo] normal. *)
Lemma emphasis_tie_counterexample :
  (claimed_highest Sample.animals_tied = Some "lobo"
   /\ first_greatest Sample.animals_tied = Some "gato"
   /\ exists ctx,
        animal_canvas Sample.base_image (profile Sample.animals_tied) = Normal ctx
        /\ style_at ctx 120 280 = Some ("bold 36px sans-serif", "#FFFFFF")
        /\ style_at ctx 420 630 = Some ("bold 40px sans-serif", "#FFED00"))
  /\ ~ emphasis_as_claimed Sample.base_image Sample.animals_tied.
Proof.
  split.
  - split; [vm_compute; reflexivity|]. split; [vm_compute; reflexivity|].
    eexists. split; [vm_compute; reflexivity|]. split; vm_compute; reflexivity.
  - intros Hclaim.
    destruct (animal_canvas Sample.base_image (profile Sample.animals_tied))
      as [ctx|] eqn:Hrun; [|vm_compute in Hrun; discriminate].
    specialize (Hclaim ctx Hrun "lobo" 120 280 (or_introl eq_refl)).
    vm_compute in Hrun. injection Hrun as <-.
    vm_compute in Hclaim. discriminate.
Qed.

(** C2 at a sample brain profile. *)
Lemma brain_uniform_style_witness :
  Permutation (map fst Sample.brains) brain_keys
  /\ exists ctx,
       brain_canvas Sample.base_image (profile Sample.brains) = Normal ctx
       /\ texts ctx
          = map (fun entry => Num.to_string (snd entry) ++ "%") Sample.brains.
Proof.
  split; [apply Permutation_refl|].
  apply (proj2 (Claims.brain_uniform_style Sample.base_image) Sample.brains).
  apply Permutation_refl.
Defined.

(** C3 after two calls, the second with undefined coordinates. *)
Lemma shadow_reset_after_draw_witness :
  [("55%", VNumber (of_Z 420), VNumber (of_Z 280), "bold 40px sans-serif",
    "#FFED00", VString "right", "middle");
   ("2%", VUndefined, VUndefined, "bold 44px sans-serif", "#FFFFFF",
    VUndefined, "middle")] <> []
  /\ shadow_is_reset
       (fold_left draw_call
          [("55%", VNumber (of_Z 420), VNumber (of_Z 280), "bold 40px sans-serif",
            "#FFED00", VString "right", "middle");
           ("2%", VUndefined, VUndefined, "bold 44px sans-serif", "#FFFFFF",
            VUndefined, "middle")]
          getContext).
Proof.
  split; [discriminate|].
  apply (proj1 (proj2 Claims.shadow_reset_after_draw)). discriminate.
Defined.

(** C4 when only the brain image fails to load. *)
Lemma brain_load_failure_reported_witness :
  method (Sample.post Sample.full_body) = "POST"
  /\ get_field Sample.full_body "animalData" = Normal (profile Sample.animals)
  /\ truthy (profile Sample.animals) = true
  /\ get_field Sample.full_body "brainData" = Normal (profile Sample.brains)
  /\ truthy (profile Sample.brains) = true
  /\ fetch Sample.brain_offline BASE_IMAGE_BRAIN_URL
     = Throw (ErrorObject "Server responded with 404")
  /\ exists response,
       fst (run (handler Sample.brain_offline (Sample.post Sample.full_body)))
       = Normal response
       /\ status response = 500
       /\ json response
          = failure_body
              "Error during brain image processing: Server responded with 404"
       /\ get_field (json response) "animalImage" = Normal VUndefined
       /\ get_field (json response) "brainImage" = Normal VUndefined.
Proof.
  repeat (split; [reflexivity|]).
  apply (Claims.brain_load_failure_reported Sample.brain_offline
           (Sample.post Sample.full_body) (profile Sample.animals)
           (profile Sample.brains) (ErrorObject "Server responded with 404"));
    try reflexivity.
  left. eexists. vm_compute. reflexivity.
Defined.

(** C4 as stated fails when neither image loads and the animal request,
    made first, fails first: the details name the animal renderer. *)
Lemma brain_failure_counterexample :
  fst (run (handler Sample.offline (Sample.post Sample.full_body)))
  = Normal {| status := 500;
              json := failure_body
                "Error during animal image processing: getaddrinfo ENOTFOUND i.postimg.cc" |}
  /\ ~ brain_failure_as_claimed Sample.offline (Sample.post Sample.full_body).
Proof.
  split; [vm_compute; reflexivity|].
  intros Hclaim.
  destruct (Hclaim (profile Sample.animals) (profile Sample.brains)
              (ErrorObject "getaddrinfo ENOTFOUND i.postimg.cc")
              eq_refl eq_refl eq_refl eq_refl eq_refl eq_refl)
    as (details & Hres & Hincludes).
  vm_compute in Hres. injection Hres as <-.
  vm_compute in Hincludes. discriminate.
Qed.

(** X13 for a body without [brainData]. *)
Lemma missing_data_rejected_witness :
  method (Sample.post (VObject [("animalData", profile Sample.animals)])) = "POST"
  /\ (missing (VObject [("animalData", profile Sample.animals)]) "animalData"
      \/ missing (VObject [("animalData", profile Sample.animals)]) "brainData")
  /\ run (handler Sample.online
            (Sample.post (VObject [("animalData", profile Sample.animals)])))
     = (Normal {| status := 400;
                  json := VObject [("error", VString missing_data_message)] |},
        []).
Proof.
  assert (Hmissing : missing (VObject [("animalData", profile Sample.animals)]) "brainData")
    by (exists VUndefined; split; reflexivity).
  split; [reflexivity|]. split; [right; exact Hmissing|].
  apply (Claims.missing_data_rejected Sample.online
           (Sample.post (VObject [("animalData", profile Sample.animals)])) eq_refl).
  right. exact Hmissing.
Defined.

(** C6 at the sample profile. *)
Lemma animal_text_is_number_string_witness :
  Permutation (map fst Sample.animals) animal_keys
  /\ (exists ctx,
        animal_canvas Sample.base_image (profile Sample.animals) = Normal ctx
        /\ texts ctx
           = map (fun entry => Num.to_string (snd entry) ++ "%") Sample.animals)
  /\ (forall x z, integral x z = true ->
        Num.to_string x = signed_decimal z
        /\ integer_percent (Num.to_string x ++ "%") = true)
  /\ (forall z, -1000 <= z <= 1000 -> integral (of_Z z) z = true)
  /\ Num.to_string (dyadic 25 (-1)) = "12.5".
Proof.
  split; [apply Permutation_refl|].
  apply (Claims.animal_text_is_number_string Sample.base_image Sample.animals).
  apply Permutation_refl.
Defined.

(** C6 as stated fails for the value 12.5: its text is "12.5%". *)
Lemma fraction_text_counterexample :
  (exists ctx,
      animal_canvas Sample.base_image (profile Sample.animals_fraction) = Normal ctx
      /\ texts ctx = ["12.5%"; "55%"; "20%"; "12.5%"]
      /\ integer_percent "12.5%" = false)
  /\ ~ integer_texts_as_claimed Sample.base_image Sample.animals_fraction.
Proof.
  split.
  - eexists. split; [vm_compute; reflexivity|]. split; vm_compute; reflexivity.
  - intros Hclaim.
    destruct (animal_canvas Sample.base_image (profile Sample.animals_fraction))
      as [ctx|] eqn:Hrun; [|vm_compute in Hrun; discriminate].
    specialize (Hclaim ctx Hrun).
    vm_compute in Hrun. injection Hrun as <-.
    vm_compute in Hclaim. discriminate.
Qed.

(** C7 for an object with an inherited key and an unknown one, the
    latter with a value that does not convert to a string. *)
Lemma brain_skips_unknown_keys_witness :
  fetch Sample.online BASE_IMAGE_BRAIN_URL = Normal Sample.base_image
  /\ brain_printable Sample.brains_extra = true
  /\ run (generateBrainImage Sample.online BASE_IMAGE_BRAIN_URL
            (VObject Sample.brains_extra))
     = (Normal (encodePNG 640 900
                  (DrawImage Sample.base_image (of_Z 0) (of_Z 0)
                     :: flat_map brain_layer Sample.brains_extra)),
        [LoadImage BASE_IMAGE_BRAIN_URL])
  /\ texts {| state := state getContext;
              painted := flat_map brain_layer Sample.brains_extra |}
     = ["60%"; "30%"].
Proof.
  split; [reflexivity|]. split; [reflexivity|]. split; [|vm_compute; reflexivity].
  apply (proj1 (Claims.brain_skips_unknown_keys Sample.online BASE_IMAGE_BRAIN_URL
                  Sample.base_image Sample.brains_extra eq_refl eq_refl)).
Defined.

Lemma negative_values_low entry :
  In entry Sample.animals_negative -> le (snd entry) (of_Z (-1)) = true.
Proof.
  intros [<-|[<-|[<-|[<-|[]]]]]; reflexivity.
Qed.

(** C9 at the profile -5, -10, -20, -30. *)
Lemma no_emphasis_when_all_at_most_minus_one_witness :
  Permutation (map fst Sample.animals_negative) animal_keys
  /\ (forall entry, In entry Sample.animals_negative ->
        le (snd entry) (of_Z (-1)) = true)
  /\ find_highest (map number_entry Sample.animals_negative)
     = Normal (None, VNumber (of_Z (-1)))
  /\ exists ctx,
       animal_canvas Sample.base_image (profile Sample.animals_negative) = Normal ctx
       /\ texts ctx
          = map (fun entry => Num.to_string (snd entry) ++ "%") Sample.animals_negative
       /\ forall text x y st,
            In (FillText text x y st) (painted ctx) ->
            font st = "bold 36px sans-serif" /\ fillStyle st = "#FFFFFF".
Proof.
  split; [apply Permutation_refl|]. split; [exact negative_values_low|].
  apply (Claims.no_emphasis_when_all_at_most_minus_one Sample.base_image
           Sample.animals_negative (Permutation_refl _) negative_values_low).
Defined.

(** C10 for a request whose body is [null], and for the 400 answer to a
    body without [brainData]. *)
Lemma no_body_is_server_error_witness :
  (method (Sample.post VNull) = "POST"
   /\ (body (Sample.post VNull) = VUndefined \/ body (Sample.post VNull) = VNull)
   /\ exists details,
        run (handler Sample.online (Sample.post VNull))
        = (Normal {| status := 500; json := failure_body details |},
           [ConsoleError "Image generation failed:" (TypeError details)]))
  /\ (fst (run (handler Sample.online
                  (Sample.post (VObject [("animalData", profile Sample.animals)]))))
      = Normal {| status := 400;
                  json := VObject [("error", VString missing_data_message)] |}
      /\ method (Sample.post (VObject [("animalData", profile Sample.animals)])) = "POST"
      /\ (missing (VObject [("animalData", profile Sample.animals)]) "animalData"
          \/ missing (VObject [("animalData", profile Sample.animals)]) "brainData")).
Proof.
  split.
  - split; [reflexivity|]. split; [right; reflexivity|].
    apply (proj1 (Claims.no_body_is_server_error Sample.online (Sample.post VNull))
             eq_refl (or_intror eq_refl)).
  - split; [reflexivity|].
    apply (proj2 (Claims.no_body_is_server_error Sample.online
                    (Sample.post (VObject [("animalData", profile Sample.animals)])))
             _ eq_refl eq_refl).
Defined.
End Checks.

(** ** Further properties of the module *)

Module Further.
Import Num JS Canvas Eff GenerateImages Spec.
Import NumFacts CanvasFacts RenderFacts HighestFacts HandlerFacts CanvasContents.

Lemma shadow_setters_state ctx :
  state (set_shadowOffsetY
           (set_shadowOffsetX
              (set_shadowBlur (set_shadowColor ctx "rgba(0, 0, 0, 0.8)") (of_Z 10))
              (of_Z 0)) (of_Z 0))
  = st_shadowOffsetY (of_Z 0)
      (st_shadowOffsetX (of_Z 0)
         (st_shadowBlur (of_Z 10) (st_shadowColor "rgba(0, 0, 0, 0.8)" (state ctx)))).
Proof.
  unfold set_shadowOffsetY, set_shadowOffsetX, set_shadowBlur.
  rewrite blur_ten_accepted, offset_zero_accepted. reflexivity.
Qed.

Section WithEngine.
Context {engine : Engine} {png : Png}.

(** X9.  Whatever the state it finds, and for coordinates and an
    alignment that are primitives, the drawing primitive keeps the
    layers already painted and adds at most one: the text at the given
    coordinates when both convert to finite numbers, nothing otherwise.
    The run is painted with the shadow rgba(0, 0, 0, 0.8), blur 10,
    offsets 0. *)
Theorem drawTextWithShadow_layer ctx text (x y textAlign : primitive)
    font fillStyle textBaseline :
  exists st,
    shadowColor st = "rgba(0, 0, 0, 0.8)"
    /\ shadowBlur st = of_Z 10
    /\ shadowOffsetX st = of_Z 0
    /\ shadowOffsetY st = of_Z 0
    /\ painted (drawTextWithShadow ctx text (primitive_value x) (primitive_value y)
                  font fillStyle (primitive_value textAlign) textBaseline)
       = (painted ctx
            ++ if is_finite (to_number (primitive_value x))
                  && is_finite (to_number (primitive_value y))
               then [FillText text (to_number (primitive_value x))
                       (to_number (primitive_value y)) st]
               else [])%list.
Proof.
  unfold drawTextWithShadow. cbv zeta.
  set (c0 := set_textBaseline
               (set_textAlign (set_fillStyle (set_font ctx font) fillStyle)
                  (primitive_value textAlign))
               textBaseline).
  set (c1 := set_shadowOffsetY _ _).
  assert (Hst : state c1
                = st_shadowOffsetY (of_Z 0)
                    (st_shadowOffsetX (of_Z 0)
                       (st_shadowBlur (of_Z 10)
                          (st_shadowColor "rgba(0, 0, 0, 0.8)" (state c0)))))
    by apply shadow_setters_state.
  assert (Hp : painted c1 = painted ctx).
  { unfold c1, c0. peel_setters. reflexivity. }
  exists (state c1). rewrite Hst at 1 2 3 4.
  repeat (split; [reflexivity|]).
  rewrite painted_set_shadowBlur, painted_set_shadowColor.
  unfold fillText.
  destruct (is_finite (to_number (primitive_value x))
            && is_finite (to_number (primitive_value y))).
  - unfold paint. cbn [painted]. now rewrite Hp.
  - now rewrite Hp, app_nil_r.
Qed.

(** *** The renderers on arbitrary data *)

Lemma to_primitive_convertible v :
  convertible v = true -> exists p, to_primitive v = Normal p.
Proof.
  intros H. unfold to_primitive. rewrite (to_string_convertible _ H).
  destruct v; eexists; reflexivity.
Qed.

Lemma to_primitive_hostile v :
  convertible v = false ->
  to_primitive v = Throw (TypeError "Cannot convert object to primitive value").
Proof.
  intros H. unfold to_primitive. rewrite (to_string_hostile _ H).
  destruct v; try reflexivity; discriminate H.
Qed.

Lemma js_gt_convertible a b :
  convertible a = true -> convertible b = true -> exists r, js_gt a b = Normal r.
Proof.
  intros Ha Hb. unfold js_gt, is_less_than.
  destruct (to_primitive_convertible a Ha) as [pa ->].
  destruct (to_primitive_convertible b Hb) as [pb ->].
  cbv beta iota.
  match goal with
  | |- exists r, match ?e with Some _ => _ | None => _ end = _ =>
      destruct e as [[|]|]
  end; eexists; reflexivity.
Qed.

Lemma js_gt_hostile a b :
  convertible a = false ->
  js_gt a b = Throw (TypeError "Cannot convert object to primitive value").
Proof.
  intros Ha. unfold js_gt, is_less_than. now rewrite (to_primitive_hostile a Ha).
Qed.

(** The first loop on arbitrary values: it throws at the first value
    that does not convert. *)
Lemma highest_from_runs entries : forall h m,
  convertible m = true ->
  all_convertible entries = true ->
  exists h' m', highest_from (h, m) entries = Normal (h', m').
Proof.
  induction entries as [|[name percentage] rest IH]; intros h m Hm Hall;
    cbn [highest_from]; [now eexists _, _|].
  apply andb_prop in Hall. destruct Hall as [Hp Hrest]. cbn [snd] in Hp.
  unfold highest_step.
  destruct (js_gt_convertible percentage m Hp Hm) as [[|] ->]; now apply IH.
Qed.

Lemma highest_from_throws entries : forall h m,
  convertible m = true ->
  all_convertible entries = false ->
  highest_from (h, m) entries
  = Throw (TypeError "Cannot convert object to primitive value").
Proof.
  induction entries as [|[name percentage] rest IH]; intros h m Hm Hall;
    [discriminate|].
  cbn [highest_from]. unfold highest_step.
  destruct (convertible percentage) eqn:Hp.
  - unfold all_convertible in Hall. cbn [forallb snd] in Hall.
    rewrite Hp in Hall. cbn [andb] in Hall.
    destruct (js_gt_convertible percentage m Hp Hm) as [[|] ->]; now apply IH.
  - now rewrite (js_gt_hostile percentage m Hp).
Qed.

Lemma draw_animal_entries_known highest entries : forall ctx,
  all_convertible entries = true ->
  (forall entry, In entry entries ->
     get_property animal_positions (fst entry) <> Absent) ->
  exists ctx', draw_animal_entries highest ctx entries = Normal ctx'.
Proof.
  induction entries as [|[name percentage] rest IH]; intros ctx Hall Hknown;
    cbn [draw_animal_entries]; [now eexists|].
  apply andb_prop in Hall. destruct Hall as [Hp Hrest]. cbn [snd] in Hp.
  pose proof (Hknown (name, percentage) (or_introl eq_refl)) as Hname.
  cbn [fst] in Hname. unfold draw_animal_entry.
  rewrite (to_string_convertible _ Hp).
  destruct (get_property animal_positions name) as [[x y]| |]; try congruence;
    (apply IH; [exact Hrest|]); intros entry Hin; apply Hknown; now right.
Qed.

Lemma draw_animal_entries_unknown highest entries : forall ctx,
  all_convertible entries = true ->
  (exists entry, In entry entries
                 /\ get_property animal_positions (fst entry) = Absent) ->
  draw_animal_entries highest ctx entries
  = Throw (TypeError
             "Cannot destructure property 'x' of 'positions[name]' as it is undefined.").
Proof.
  induction entries as [|[name percentage] rest IH];
    intros ctx Hall (entry & Hin & Habsent); [destruct Hin|].
  apply andb_prop in Hall. destruct Hall as [Hp Hrest]. cbn [snd] in Hp.
  cbn [draw_animal_entries]. unfold draw_animal_entry.
  rewrite (to_string_convertible _ Hp).
  destruct (get_property animal_positions name) as [[x y]| |] eqn:Hname;
    try reflexivity;
    (destruct Hin as [<-|Hin]; [cbn [fst] in Habsent; congruence|]);
    (apply IH; [exact Hrest|]); now exists entry.
Qed.

(** X5.  Once the base image has loaded, the animal renderer rejects
    with the wrapped TypeError of the failed conversion when a value of
    the data does not convert to a primitive; when every value
    converts, it fulfils if every enumerated key resolves in the
    position table (own or inherited), and a single key that does not
    makes it reject with the wrapped TypeError of the failed
    destructuring, whatever the other entries are. *)
Theorem animal_renderer_unknown_key net url img data entries :
  fetch net url = Normal img ->
  Object_entries data = Normal entries ->
  (all_convertible entries = false ->
   run (generateAnimalImage net url data)
   = (Throw (ErrorObject
               ("Error during animal image processing: "
                  ++ "Cannot convert object to primitive value")),
      [LoadImage url]))
  /\ (all_convertible entries = true ->
      ((forall entry, In entry entries ->
          get_property animal_positions (fst entry) <> Absent) ->
       exists image,
         run (generateAnimalImage net url data) = (Normal image, [LoadImage url]))
      /\ ((exists entry, In entry entries
                         /\ get_property animal_positions (fst entry) = Absent) ->
          run (generateAnimalImage net url data)
          = (Throw (ErrorObject
                      ("Error during animal image processing: "
                         ++ "Cannot destructure property 'x' of 'positions[name]' as it is undefined.")),
             [LoadImage url]))).
Proof.
  intros Hload Hentries. unfold run.
  rewrite generateAnimalImage_run, Hload. unfold animal_canvas. rewrite Hentries.
  unfold find_highest. split.
  - intros Hbad.
    now rewrite (highest_from_throws entries None (VNumber (of_Z (-1))) eq_refl Hbad).
  - intros Hall.
    destruct (highest_from_runs entries None (VNumber (of_Z (-1))) eq_refl Hall)
      as (h & m & ->).
    split.
    + intros Hknown.
      destruct (draw_animal_entries_known h entries
                  (drawImage getContext img (of_Z 0) (of_Z 0)) Hall Hknown)
        as (ctx & ->).
      now eexists.
    + intros Hunknown. now rewrite draw_animal_entries_unknown.
Qed.

(** X7.  Once the base image has loaded, the brain renderer fulfils for
    a data whose entries with a key that the position lookup resolves
    all hold a value that converts to a string, whatever its other
    entries; a value that does not convert under such a key makes it
    reject with the wrapped TypeError of the conversion; on undefined
    or null it rejects with the wrapped TypeError of [Object.entries].
    The image has been requested in each case. *)
Theorem brain_renderer_fulfils net url img data :
  fetch net url = Normal img ->
  (forall entries,
      Object_entries data = Normal entries ->
      (brain_printable entries = true ->
       exists image,
         run (generateBrainImage net url data) = (Normal image, [LoadImage url]))
      /\ (brain_printable entries = false ->
          run (generateBrainImage net url data)
          = (Throw (ErrorObject
                      ("Error during brain image processing: "
                         ++ "Cannot convert object to primitive value")),
             [LoadImage url])))
  /\ (data = VUndefined \/ data = VNull ->
      run (generateBrainImage net url data)
      = (Throw (ErrorObject
                  ("Error during brain image processing: "
                     ++ "Cannot convert undefined or null to object")),
         [LoadImage url])).
Proof.
  intros Hload. unfold run. rewrite generateBrainImage_run, Hload.
  unfold brain_canvas. split.
  - intros entries ->. split.
    + intros Hok.
      destruct (draw_brain_entries_runs entries
                  (drawImage getContext img (of_Z 0) (of_Z 0)) Hok) as [ctx ->].
      now eexists.
    + intros Hbad. now rewrite draw_brain_entries_throws.
  - intros [-> | ->]; reflexivity.
Qed.

(** *** The handler with its events *)

Lemma handler_validated_run net req animalData brainData :
  method req = "POST" ->
  get_field (body req) "animalData" = Normal animalData -> truthy animalData = true ->
  get_field (body req) "brainData" = Normal brainData -> truthy brainData = true ->
  run (handler net req)
  = match fst (run (generateAnimalImage net BASE_IMAGE_ANIMALS_URL animalData)),
          fst (run (generateBrainImage net BASE_IMAGE_BRAIN_URL brainData)) with
    | Normal animalImage, Normal brainImage =>
        (Normal {| status := 200;
                   json := VObject [("animalImage", VString animalImage);
                                    ("brainImage", VString brainImage)] |},
         [LoadImage BASE_IMAGE_ANIMALS_URL; LoadImage BASE_IMAGE_BRAIN_URL])
    | Throw err, Normal _ | Normal _, Throw err =>
        (Normal {| status := 500; json := failure_body (message_or_string err) |},
         [LoadImage BASE_IMAGE_ANIMALS_URL; LoadImage BASE_IMAGE_BRAIN_URL;
          ConsoleError "Image generation failed:" err])
    | Throw first, Throw second =>
        let err := match race net with
                   | FirstRejectsFirst => first
                   | SecondRejectsFirst => second
                   end in
        (Normal {| status := 500; json := failure_body (message_or_string err) |},
         [LoadImage BASE_IMAGE_ANIMALS_URL; LoadImage BASE_IMAGE_BRAIN_URL;
          ConsoleError "Image generation failed:" err])
    end.
Proof.
  intros Hm Ha Hta Hb Htb.
  unfold handler, run. rewrite Hm, String.eqb_refl. cbn [negb].
  unfold try_catch, bind, lift, Promise_all, emit, ret.
  rewrite Ha, Hb, Hta, Htb. cbn [negb orb].
  rewrite !generateAnimalImage_run, !generateBrainImage_run. cbn [fst app].
  destruct (fetch net BASE_IMAGE_ANIMALS_URL) as [imgA|errA];
    [destruct (animal_canvas imgA animalData)|];
    (destruct (fetch net BASE_IMAGE_BRAIN_URL) as [imgB|errB];
     [destruct (brain_canvas imgB brainData)|]);
    try reflexivity; cbv zeta; destruct (race net); reflexivity.
Qed.

(** Every rejection of a renderer is an [Error]. *)
Lemma animal_rejection net url data t :
  fst (run (generateAnimalImage net url data)) = Throw t ->
  exists cause, t = ErrorObject ("Error during animal image processing: " ++ cause).
Proof.
  unfold run. rewrite generateAnimalImage_run. cbn [fst].
  destruct (fetch net url) as [img|cause];
    [destruct (animal_canvas img data) as [ctx|cause]; [discriminate|]|];
    intros [= <-]; now eexists.
Qed.

Lemma brain_rejection net url data t :
  fst (run (generateBrainImage net url data)) = Throw t ->
  exists cause, t = ErrorObject ("Error during brain image processing: " ++ cause).
Proof.
  unfold run. rewrite generateBrainImage_run. cbn [fst].
  destruct (fetch net url) as [img|cause];
    [destruct (brain_canvas img data) as [ctx|cause]; [discriminate|]|];
    intros [= <-]; now eexists.
Qed.

(** X1.  A request whose method is not POST is answered with 405 and
    [{ error: 'Method Not Allowed' }] whatever its body; no image is
    requested and nothing is logged. *)
Theorem method_not_allowed net req :
  method req <> "POST" ->
  run (handler net req)
  = (Normal {| status := 405; json := VObject [("error", VString "Method Not Allowed")] |},
     []).
Proof.
  intros Hm. apply String.eqb_neq in Hm.
  unfold handler, run. rewrite Hm. reflexivity.
Qed.

(** X4.  For a POST request that passes validation both images are
    requested, the animal one first, whatever either renderer does.
    Either both renderers fulfil and the answer is 200 with both
    images, nothing being logged; or one rejects, the answer is 500
    with the message of that rejection as details and no image, and the
    rejection is logged once. *)
Theorem validated_request_events net req animalData brainData :
  method req = "POST" ->
  get_field (body req) "animalData" = Normal animalData -> truthy animalData = true ->
  get_field (body req) "brainData" = Normal brainData -> truthy brainData = true ->
  (exists animalImage brainImage,
      fst (run (generateAnimalImage net BASE_IMAGE_ANIMALS_URL animalData))
      = Normal animalImage
      /\ fst (run (generateBrainImage net BASE_IMAGE_BRAIN_URL brainData))
         = Normal brainImage
      /\ run (handler net req)
         = (Normal {| status := 200;
                      json := VObject [("animalImage", VString animalImage);
                                       ("brainImage", VString brainImage)] |},
            [LoadImage BASE_IMAGE_ANIMALS_URL; LoadImage BASE_IMAGE_BRAIN_URL]))
  \/ (exists message,
        (fst (run (generateAnimalImage net BASE_IMAGE_ANIMALS_URL animalData))
         = Throw (ErrorObject message)
         \/ fst (run (generateBrainImage net BASE_IMAGE_BRAIN_URL brainData))
            = Throw (ErrorObject message))
        /\ run (handler net req)
           = (Normal {| status := 500; json := failure_body message |},
              [LoadImage BASE_IMAGE_ANIMALS_URL; LoadImage BASE_IMAGE_BRAIN_URL;
               ConsoleError "Image generation failed:" (ErrorObject message)])).
Proof.
  intros Hm Ha Hta Hb Htb.
  rewrite (handler_validated_run net req animalData brainData Hm Ha Hta Hb Htb).
  destruct (fst (run (generateAnimalImage net BASE_IMAGE_ANIMALS_URL animalData)))
    as [animalImage|errA] eqn:HA;
    destruct (fst (run (generateBrainImage net BASE_IMAGE_BRAIN_URL brainData)))
    as [brainImage|errB] eqn:HB.
  - left. now exists animalImage, brainImage.
  - right. destruct (brain_rejection _ _ _ _ HB) as (cause & ->).
    eexists. split; [right; reflexivity|reflexivity].
  - right. destruct (animal_rejection _ _ _ _ HA) as (cause & ->).
    eexists. split; [left; reflexivity|reflexivity].
  - right. destruct (animal_rejection _ _ _ _ HA) as (causeA & ->).
    destruct (brain_rejection _ _ _ _ HB) as (causeB & ->).
    cbv zeta. destruct (race net); eexists;
      (split; [|reflexivity]); [left|right]; reflexivity.
Qed.

(** X2.  For a POST request that carries an animal profile with its
    four numeric values and a brain object whose values under the keys
    the position lookup resolves convert to strings, both images
    loading, the answer is 200: [animalImage] encodes the animal base image with one
    run per entry, the first greatest emphasised, [brainImage] the brain
    base image with the runs of the keys the brain table has; each image
    has the size of its base image. *)
Theorem success_response net req imgA imgB animals brainProps :
  method req = "POST" ->
  get_field (body req) "animalData" = Normal (profile animals) ->
  get_field (body req) "brainData" = Normal (VObject brainProps) ->
  Permutation (map fst animals) animal_keys ->
  brain_printable brainProps = true ->
  fetch net BASE_IMAGE_ANIMALS_URL = Normal imgA ->
  fetch net BASE_IMAGE_BRAIN_URL = Normal imgB ->
  run (handler net req)
  = (Normal
       {| status := 200;
          json := VObject
            [("animalImage",
              VString (encodePNG (width imgA) (height imgA)
                         (DrawImage imgA (of_Z 0) (of_Z 0)
                            :: flat_map (animal_layer (first_greatest animals)) animals)));
             ("brainImage",
              VString (encodePNG (width imgB) (height imgB)
                         (DrawImage imgB (of_Z 0) (of_Z 0)
                            :: flat_map brain_layer brainProps)))] |},
     [LoadImage BASE_IMAGE_ANIMALS_URL; LoadImage BASE_IMAGE_BRAIN_URL]).
Proof.
  intros Hm Ha Hb Hperm Hok HloadA HloadB.
  rewrite (handler_validated_run net req _ _ Hm Ha eq_refl Hb eq_refl).
  unfold run. rewrite generateAnimalImage_run, generateBrainImage_run, HloadA, HloadB.
  destruct (animal_canvas_painted imgA animals (keys_known _ _ Hperm))
    as (ctxA & -> & HpA).
  destruct (brain_canvas_runs imgB brainProps Hok) as (ctxB & -> & HpB).
  cbn [fst]. unfold toDataURL. now rewrite HpA, HpB.
Qed.

(** X6.  Validation only asks for truthy values: when [animalData] and
    [brainData] are truthy and have nothing to enumerate (true, a
    non-zero number, an empty object or array), the answer is 200 and
    each image is its base image with no text. *)
Theorem empty_data_accepted net req animalData brainData imgA imgB :
  method req = "POST" ->
  get_field (body req) "animalData" = Normal animalData -> truthy animalData = true ->
  get_field (body req) "brainData" = Normal brainData -> truthy brainData = true ->
  Object_entries animalData = Normal [] ->
  Object_entries brainData = Normal [] ->
  fetch net BASE_IMAGE_ANIMALS_URL = Normal imgA ->
  fetch net BASE_IMAGE_BRAIN_URL = Normal imgB ->
  fst (run (handler net req))
  = Normal
      {| status := 200;
         json := VObject
           [("animalImage",
             VString (encodePNG (width imgA) (height imgA)
                        [DrawImage imgA (of_Z 0) (of_Z 0)]));
            ("brainImage",
             VString (encodePNG (width imgB) (height imgB)
                        [DrawImage imgB (of_Z 0) (of_Z 0)]))] |}.
Proof.
  intros Hm Ha Hta Hb Htb HeA HeB HloadA HloadB.
  rewrite (handler_renders net req _ _ Hm Ha Hta Hb Htb).
  unfold run. rewrite generateAnimalImage_run, generateBrainImage_run, HloadA, HloadB.
  unfold animal_canvas, brain_canvas. rewrite HeA, HeB. reflexivity.
Qed.

(** X3.  The handler never rejects: for every request it answers, with
    status 200, 400, 405 or 500; the answer has an [error] field
    exactly when the status is not 200, and when the status is 400 or
    405 no image has been requested and nothing logged. *)
Theorem handler_always_answers net req :
  exists response log,
    run (handler net req) = (Normal response, log)
    /\ In (status response) [200; 400; 405; 500]
    /\ (status response = 200 <-> get_field (json response) "error" = Normal VUndefined)
    /\ (status response = 400 \/ status response = 405 -> log = []).
Proof.
  destruct (String.eqb_spec (method req) "POST") as [Hm|Hm].
  2:{ apply String.eqb_neq in Hm. unfold handler, run. rewrite Hm. cbn [negb ret].
      eexists _, _. split; [reflexivity|]. cbn [status json].
      repeat split; try (cbn; intuition congruence). }
  destruct (get_field (body req) "animalData") as [a|ta] eqn:Ha.
  2:{ unfold handler, run. rewrite Hm, String.eqb_refl.
      unfold try_catch, bind, lift, emit, ret. rewrite Ha. cbn [negb].
      eexists _, _. split; [reflexivity|]. cbn [status json].
      repeat split; try (cbn; intuition congruence). }
  destruct (get_field (body req) "brainData") as [b|tb] eqn:Hb.
  2:{ unfold handler, run. rewrite Hm, String.eqb_refl.
      unfold try_catch, bind, lift, emit, ret. rewrite Ha, Hb. cbn [negb].
      eexists _, _. split; [reflexivity|]. cbn [status json].
      repeat split; try (cbn; intuition congruence). }
  destruct (truthy a && truthy b) eqn:Htruthy.
  - apply andb_true_iff in Htruthy. destruct Htruthy as [Hta Htb].
    rewrite (handler_validated_run net req a b Hm Ha Hta Hb Htb).
    destruct (fst (run (generateAnimalImage net BASE_IMAGE_ANIMALS_URL a)));
      destruct (fst (run (generateBrainImage net BASE_IMAGE_BRAIN_URL b)));
      cbv zeta; eexists _, _; (split; [reflexivity|]); cbn [status json];
      repeat split; try (cbn; intuition congruence).
  - unfold handler, run. rewrite Hm, String.eqb_refl.
    unfold try_catch, bind, lift, emit, ret. rewrite Ha, Hb. cbn [negb].
    replace (negb (truthy a) || negb (truthy b)) with true
      by (symmetry; rewrite <- negb_andb, Htruthy; reflexivity).
    eexists _, _. split; [reflexivity|]. cbn [status json].
    repeat split; try (cbn; intuition congruence).
Qed.

(** X8.  The details of a 500 answer are always the message of an
    Error: of the TypeError thrown by destructuring an undefined or null
    body, or of a renderer's wrapped error with its prefix.  The
    fallback text 'An unknown error occurred.' is never sent. *)
Theorem server_error_details net req response :
  fst (run (handler net req)) = Normal response ->
  status response = 500 ->
  exists details,
    json response = failure_body details
    /\ details <> "An unknown error occurred."
    /\ ((body req = VUndefined
          /\ details
             = "Cannot destructure property 'animalData' of 'req.body' as it is undefined.")
        \/ (body req = VNull
            /\ details
               = "Cannot destructure property 'animalData' of 'req.body' as it is null.")
        \/ (exists cause, details = "Error during animal image processing: " ++ cause)
        \/ (exists cause, details = "Error during brain image processing: " ++ cause)).
Proof.
  intros Hres H500.
  destruct (String.eqb_spec (method req) "POST") as [Hm|Hm].
  2:{ apply String.eqb_neq in Hm. unfold handler, run in Hres. rewrite Hm in Hres.
      cbn [negb ret fst] in Hres. injection Hres as <-. discriminate H500. }
  destruct (get_field (body req) "animalData") as [a|ta] eqn:Ha.
  2:{ unfold handler, run in Hres. rewrite Hm, String.eqb_refl in Hres.
      unfold try_catch, bind, lift, emit, ret in Hres. rewrite Ha in Hres.
      cbn [negb fst] in Hres. injection Hres as <-.
      destruct (body req) eqn:Hbody; try discriminate Ha;
        cbn [get_field] in Ha; injection Ha as <-;
        (eexists; split; [reflexivity|]; split; [discriminate|]);
        [left|right; left]; split; reflexivity. }
  assert (Hb : exists b, get_field (body req) "brainData" = Normal b).
  { destruct (body req); try discriminate Ha; now eexists. }
  destruct Hb as (b & Hb).
  destruct (truthy a && truthy b) eqn:Htruthy.
  - apply andb_true_iff in Htruthy. destruct Htruthy as [Hta Htb].
    rewrite (handler_renders net req a b Hm Ha Hta Hb Htb) in Hres.
    assert (Hforms : forall err,
               fst (run (generateAnimalImage net BASE_IMAGE_ANIMALS_URL a)) = Throw err
               \/ fst (run (generateBrainImage net BASE_IMAGE_BRAIN_URL b)) = Throw err ->
               exists details,
                 {| status := 500; json := failure_body (message_or_string err) |}
                 = {| status := 500; json := failure_body details |}
                 /\ details <> "An unknown error occurred."
                 /\ ((exists cause,
                        details = "Error during animal image processing: " ++ cause)
                     \/ (exists cause,
                           details = "Error during brain image processing: " ++ cause))).
    { intros err [Hc|Hc];
        [apply animal_rejection in Hc|apply brain_rejection in Hc];
        destruct Hc as (cause & ->); eexists;
        (split; [reflexivity|]); (split; [discriminate|]);
        [left|right]; now exists cause. }
    destruct (fst (run (generateAnimalImage net BASE_IMAGE_ANIMALS_URL a)))
      as [ia|errA];
      destruct (fst (run (generateBrainImage net BASE_IMAGE_BRAIN_URL b)))
      as [ib|errB];
      injection Hres as <-; try discriminate H500.
    + destruct (Hforms errB (or_intror eq_refl)) as (details & Heq & Hne & Hcase).
      exists details. cbn [json]. injection Heq as Heq. rewrite Heq.
      split; [reflexivity|]. split; [exact Hne|]. right. right. exact Hcase.
    + destruct (Hforms errA (or_introl eq_refl)) as (details & Heq & Hne & Hcase).
      exists details. cbn [json]. injection Heq as Heq. rewrite Heq.
      split; [reflexivity|]. split; [exact Hne|]. right. right. exact Hcase.
    + destruct (Hforms (match race net with
                        | FirstRejectsFirst => errA
                        | SecondRejectsFirst => errB
                        end))
        as (details & Heq & Hne & Hcase).
      { destruct (race net); [left|right]; reflexivity. }
      exists details. cbn [json]. injection Heq as Heq. rewrite Heq.
      split; [reflexivity|]. split; [exact Hne|]. right. right. exact Hcase.
  - unfold handler, run in Hres. rewrite Hm, String.eqb_refl in Hres.
    unfold try_catch, bind, lift, emit, ret in Hres. rewrite Ha, Hb in Hres.
    cbn [negb] in Hres.
    replace (negb (truthy a) || negb (truthy b)) with true in Hres
      by (symmetry; rewrite <- negb_andb, Htruthy; reflexivity).
    cbn [fst] in Hres. injection Hres as <-. discriminate H500.
Qed.

(** X10.  The first loop of the animal renderer, on any list of numeric
    entries: either no value exceeds -1, and it ends with
    [highestAnimalName] null and [maxPercentage] -1; or it ends on an
    entry whose value exceeds -1 and is exceeded by no value of the
    list, every entry before it being smaller or NaN, with
    [maxPercentage] that value. *)
Theorem find_highest_result entries :
  (find_highest (map number_entry entries) = Normal (None, VNumber (of_Z (-1)))
   /\ forall entry, In entry entries -> gt (snd entry) (of_Z (-1)) = false)
  \/ (exists before name value after,
        entries = (before ++ (name, value) :: after)%list
        /\ find_highest (map number_entry entries) = Normal (Some name, VNumber value)
        /\ gt value (of_Z (-1)) = true
        /\ (forall entry, In entry entries -> gt (snd entry) value = false)
        /\ (forall entry, In entry before ->
              gt value (snd entry) = true \/ is_nan (snd entry) = true)).
Proof.
  unfold find_highest.
  destruct (highest_loop entries [] None (of_Z (-1)) loop_invariant_start)
    as (h & m & Hfold & Hnan & Hge & Hseen & Hh).
  cbn [app] in Hseen, Hh. rewrite Hfold.
  destruct h as [name|].
  - right. destruct Hh as (before & after & Hsplit & Hm & Hbefore).
    exists before, name, m, after. repeat split; assumption.
  - left. subst m. split; [reflexivity|exact Hseen].
Qed.

(** X11.  When one entry holds a value that exceeds -1 and every other
    value, that entry is the one the first loop selects, in whatever
    order the object enumerates its keys. *)
Theorem strict_maximum_selected entries name value :
  In (name, value) entries ->
  gt value (of_Z (-1)) = true ->
  (forall entry, In entry entries ->
     entry = (name, value) \/ gt value (snd entry) = true) ->
  forall reordered,
    Permutation entries reordered ->
    find_highest (map number_entry reordered) = Normal (Some name, VNumber value).
Proof.
  intros Hin Hpos Hstrict reordered Hperm.
  assert (Hin' : In (name, value) reordered) by (eapply Permutation_in; eassumption).
  assert (Hstrict' : forall entry, In entry reordered ->
            entry = (name, value) \/ gt value (snd entry) = true).
  { intros entry He. apply Hstrict. eapply Permutation_in; [|exact He].
    now apply Permutation_sym. }
  unfold find_highest.
  destruct (highest_loop reordered [] None (of_Z (-1)) loop_invariant_start)
    as (h & m & -> & _ & _ & Hmax & Hh).
  cbn [app] in Hmax, Hh.
  specialize (Hmax _ Hin'). cbn [snd] in Hmax.
  destruct h as [k|].
  - destruct Hh as (before & after & Hsplit & _ & _).
    assert (Hk : In (k, m) reordered)
      by (rewrite Hsplit; apply in_or_app; right; now left).
    destruct (Hstrict' _ Hk) as [[= -> ->]|Hlow]; [reflexivity|].
    cbn [snd] in Hlow. congruence.
  - subst m. congruence.
Qed.

Lemma brain_printable_reordered props reordered :
  Permutation props reordered ->
  brain_printable props = true -> brain_printable reordered = true.
Proof.
  intros Hperm Hok. unfold brain_printable in *.
  rewrite forallb_forall in *. intros entry Hin. apply Hok.
  eapply Permutation_in; [|exact Hin]. now apply Permutation_sym.
Qed.

(** X12.  In the brain renderer the order in which the object
    enumerates its keys only changes the order of painting: two objects
    with the same properties in different orders, the values under the
    keys the position lookup resolves converting to strings, give the
    base image followed by the same text runs, up to their order. *)
Theorem brain_runs_order_independent img props reordered :
  Permutation props reordered ->
  brain_printable props = true ->
  exists ctx ctx' runs runs',
    brain_canvas img (VObject props) = Normal ctx
    /\ brain_canvas img (VObject reordered) = Normal ctx'
    /\ painted ctx = DrawImage img (of_Z 0) (of_Z 0) :: runs
    /\ painted ctx' = DrawImage img (of_Z 0) (of_Z 0) :: runs'
    /\ Permutation runs runs'.
Proof.
  intros Hperm Hok.
  destruct (brain_canvas_runs img props Hok) as (ctx & Hrun & Hp).
  destruct (brain_canvas_runs img reordered
              (brain_printable_reordered _ _ Hperm Hok)) as (ctx' & Hrun' & Hp').
  exists ctx, ctx', (flat_map brain_layer props), (flat_map brain_layer reordered).
  repeat split; try assumption.
  now apply Permutation_flat_map.
Qed.
End WithEngine.
End Further.

(** ** The further properties at sample inputs *)

Module FurtherChecks.
Import Num JS Canvas Eff GenerateImages Spec.

#[local] Existing Instance Sample.engine.
#[local] Existing Instance Sample.png.

(** X1 for a GET request, the network being down. *)
Lemma method_not_allowed_witness :
  method (MoreSamples.get Sample.full_body) <> "POST"
  /\ run (handler Sample.offline (MoreSamples.get Sample.full_body))
     = (Normal {| status := 405;
                  json := VObject [("error", VString "Method Not Allowed")] |},
        []).
Proof.
  assert (Hm : method (MoreSamples.get Sample.full_body) <> "POST") by discriminate.
  split; [exact Hm|].
  apply (Further.method_not_allowed Sample.offline (MoreSamples.get Sample.full_body) Hm).
Defined.

(** X2 for the example of the specification. *)
Lemma success_response_witness :
  method (Sample.post Sample.full_body) = "POST"
  /\ get_field Sample.full_body "animalData" = Normal (profile Sample.animals)
  /\ get_field Sample.full_body "brainData"
     = Normal (VObject (map number_entry Sample.brains))
  /\ Permutation (map fst Sample.animals) animal_keys
  /\ brain_printable (map number_entry Sample.brains) = true
  /\ fetch Sample.online BASE_IMAGE_ANIMALS_URL = Normal Sample.base_image
  /\ fetch Sample.online BASE_IMAGE_BRAIN_URL = Normal Sample.base_image
  /\ run (handler Sample.online (Sample.post Sample.full_body))
     = (Normal
          {| status := 200;
             json := VObject
               [("animalImage",
                 VString (encodePNG 640 900
                            (DrawImage Sample.base_image (of_Z 0) (of_Z 0)
                               :: flat_map (animal_layer (first_greatest Sample.animals))
                                    Sample.animals)));
                ("brainImage",
                 VString (encodePNG 640 900
                            (DrawImage Sample.base_image (of_Z 0) (of_Z 0)
                               :: flat_map brain_layer
                                    (map number_entry Sample.brains))))] |},
        [LoadImage BASE_IMAGE_ANIMALS_URL; LoadImage BASE_IMAGE_BRAIN_URL]).
Proof.
  repeat (split; [first [reflexivity | apply Permutation_refl]|]).
  apply (Further.success_response Sample.online (Sample.post Sample.full_body)
           Sample.base_image Sample.base_image Sample.animals
           (map number_entry Sample.brains));
    first [reflexivity | apply Permutation_refl].
Defined.

(** X4 when only the animal image fails to load, with a thrown string. *)
Lemma validated_request_events_witness :
  method (Sample.post Sample.full_body) = "POST"
  /\ get_field Sample.full_body "animalData" = Normal (profile Sample.animals)
  /\ truthy (profile Sample.animals) = true
  /\ get_field Sample.full_body "brainData" = Normal (profile Sample.brains)
  /\ truthy (profile Sample.brains) = true
  /\ ((exists animalImage brainImage,
          fst (run (generateAnimalImage MoreSamples.animal_offline
                      BASE_IMAGE_ANIMALS_URL (profile Sample.animals)))
          = Normal animalImage
          /\ fst (run (generateBrainImage MoreSamples.animal_offline
                         BASE_IMAGE_BRAIN_URL (profile Sample.brains)))
             = Normal brainImage
          /\ run (handler MoreSamples.animal_offline (Sample.post Sample.full_body))
             = (Normal {| status := 200;
                          json := VObject [("animalImage", VString animalImage);
                                           ("brainImage", VString brainImage)] |},
                [LoadImage BASE_IMAGE_ANIMALS_URL; LoadImage BASE_IMAGE_BRAIN_URL]))
      \/ (exists message,
            (fst (run (generateAnimalImage MoreSamples.animal_offline
                         BASE_IMAGE_ANIMALS_URL (profile Sample.animals)))
             = Throw (ErrorObject message)
             \/ fst (run (generateBrainImage MoreSamples.animal_offline
                            BASE_IMAGE_BRAIN_URL (profile Sample.brains)))
                = Throw (ErrorObject message))
            /\ run (handler MoreSamples.animal_offline (Sample.post Sample.full_body))
               = (Normal {| status := 500; json := failure_body message |},
                  [LoadImage BASE_IMAGE_ANIMALS_URL; LoadImage BASE_IMAGE_BRAIN_URL;
                   ConsoleError "Image generation failed:" (ErrorObject message)]))).
Proof.
  repeat (split; [reflexivity|]).
  apply (Further.validated_request_events MoreSamples.animal_offline
           (Sample.post Sample.full_body) (profile Sample.animals)
           (profile Sample.brains)); reflexivity.
Defined.

(** X5 for an object with the key [urso], and for one that holds
    [{ "toString": 5 }] besides. *)
Lemma animal_renderer_unknown_key_witness :
  (fetch Sample.online BASE_IMAGE_ANIMALS_URL = Normal Sample.base_image
   /\ Object_entries MoreSamples.animals_unknown
      = Normal [("lobo", VNumber (of_Z 10)); ("urso", VNumber (of_Z 90))]
   /\ all_convertible [("lobo", VNumber (of_Z 10)); ("urso", VNumber (of_Z 90))] = true
   /\ (exists entry,
          In entry [("lobo", VNumber (of_Z 10)); ("urso", VNumber (of_Z 90))]
          /\ get_property animal_positions (fst entry) = Absent)
   /\ run (generateAnimalImage Sample.online BASE_IMAGE_ANIMALS_URL
             MoreSamples.animals_unknown)
      = (Throw (ErrorObject
                  ("Error during animal image processing: "
                     ++ "Cannot destructure property 'x' of 'positions[name]' as it is undefined.")),
         [LoadImage BASE_IMAGE_ANIMALS_URL]))
  /\ (Object_entries MoreSamples.animals_hostile
      = Normal [("lobo", VNumber (of_Z 10)); ("aguia", Sample.hostile);
                ("urso", VNumber (of_Z 90))]
      /\ all_convertible [("lobo", VNumber (of_Z 10)); ("aguia", Sample.hostile);
                          ("urso", VNumber (of_Z 90))] = false
      /\ run (generateAnimalImage Sample.online BASE_IMAGE_ANIMALS_URL
                MoreSamples.animals_hostile)
         = (Throw (ErrorObject
                     ("Error during animal image processing: "
                        ++ "Cannot convert object to primitive value")),
            [LoadImage BASE_IMAGE_ANIMALS_URL])).
Proof.
  assert (Hunknown : exists entry,
             In entry [("lobo", VNumber (of_Z 10)); ("urso", VNumber (of_Z 90))]
             /\ get_property animal_positions (fst entry) = Absent).
  { exists ("urso", VNumber (of_Z 90)). split; [right; left; reflexivity|reflexivity]. }
  split.
  - split; [reflexivity|]. split; [reflexivity|]. split; [reflexivity|].
    split; [exact Hunknown|].
    apply (proj2 (proj2 (Further.animal_renderer_unknown_key Sample.online
                           BASE_IMAGE_ANIMALS_URL Sample.base_image
                           MoreSamples.animals_unknown
                           [("lobo", VNumber (of_Z 10)); ("urso", VNumber (of_Z 90))]
                           eq_refl eq_refl) eq_refl) Hunknown).
  - split; [reflexivity|]. split; [reflexivity|].
    apply (proj1 (Further.animal_renderer_unknown_key Sample.online
                    BASE_IMAGE_ANIMALS_URL Sample.base_image
                    MoreSamples.animals_hostile
                    [("lobo", VNumber (of_Z 10)); ("aguia", Sample.hostile);
                     ("urso", VNumber (of_Z 90))]
                    eq_refl eq_refl) eq_refl).
Defined.

(** X6 for [animalData: true] and [brainData: 1]. *)
Lemma empty_data_accepted_witness :
  method (Sample.post MoreSamples.empty_body) = "POST"
  /\ get_field MoreSamples.empty_body "animalData" = Normal (VBool true)
  /\ truthy (VBool true) = true
  /\ get_field MoreSamples.empty_body "brainData" = Normal (VNumber (of_Z 1))
  /\ truthy (VNumber (of_Z 1)) = true
  /\ Object_entries (VBool true) = Normal []
  /\ Object_entries (VNumber (of_Z 1)) = Normal []
  /\ fetch Sample.online BASE_IMAGE_ANIMALS_URL = Normal Sample.base_image
  /\ fetch Sample.online BASE_IMAGE_BRAIN_URL = Normal Sample.base_image
  /\ fst (run (handler Sample.online (Sample.post MoreSamples.empty_body)))
     = Normal
         {| status := 200;
            json := VObject
              [("animalImage",
                VString (encodePNG 640 900
                           [DrawImage Sample.base_image (of_Z 0) (of_Z 0)]));
               ("brainImage",
                VString (encodePNG 640 900
                           [DrawImage Sample.base_image (of_Z 0) (of_Z 0)]))] |}.
Proof.
  repeat (split; [reflexivity|]).
  apply (Further.empty_data_accepted Sample.online (Sample.post MoreSamples.empty_body)
           (VBool true) (VNumber (of_Z 1)) Sample.base_image Sample.base_image);
    reflexivity.
Defined.

(** X7 for an object that holds [{ "toString": 5 }] under a key without
    a position, and for one that holds an array with such an element
    under [emocao]. *)
Lemma brain_renderer_fulfils_witness :
  fetch Sample.online BASE_IMAGE_BRAIN_URL = Normal Sample.base_image
  /\ (brain_printable Sample.brains_extra = true
      /\ exists image,
           run (generateBrainImage Sample.online BASE_IMAGE_BRAIN_URL
                  (VObject Sample.brains_extra))
           = (Normal image, [LoadImage BASE_IMAGE_BRAIN_URL]))
  /\ (brain_printable MoreSamples.brains_hostile = false
      /\ run (generateBrainImage Sample.online BASE_IMAGE_BRAIN_URL
                (VObject MoreSamples.brains_hostile))
         = (Throw (ErrorObject
                     ("Error during brain image processing: "
                        ++ "Cannot convert object to primitive value")),
            [LoadImage BASE_IMAGE_BRAIN_URL])).
Proof.
  split; [reflexivity|]. split.
  - split; [reflexivity|].
    apply (proj1 (proj1 (Further.brain_renderer_fulfils Sample.online
                           BASE_IMAGE_BRAIN_URL Sample.base_image
                           (VObject Sample.brains_extra) eq_refl)
                    Sample.brains_extra eq_refl) eq_refl).
  - split; [reflexivity|].
    apply (proj2 (proj1 (Further.brain_renderer_fulfils Sample.online
                           BASE_IMAGE_BRAIN_URL Sample.base_image
                           (VObject MoreSamples.brains_hostile) eq_refl)
                    MoreSamples.brains_hostile eq_refl) eq_refl).
Defined.

(** X8 for the JSON body [null]. *)
Lemma server_error_details_witness :
  fst (run (handler Sample.online (Sample.post VNull)))
  = Normal {| status := 500;
              json := failure_body
                "Cannot destructure property 'animalData' of 'req.body' as it is null." |}
  /\ exists details,
       failure_body
         "Cannot destructure property 'animalData' of 'req.body' as it is null."
       = failure_body details
       /\ details <> "An unknown error occurred."
       /\ ((VNull = VUndefined
             /\ details
                = "Cannot destructure property 'animalData' of 'req.body' as it is undefined.")
           \/ (VNull = VNull
               /\ details
                  = "Cannot destructure property 'animalData' of 'req.body' as it is null.")
           \/ (exists cause, details = "Error during animal image processing: " ++ cause)
           \/ (exists cause, details = "Error during brain image processing: " ++ cause)).
Proof.
  split; [reflexivity|].
  apply (Further.server_error_details Sample.online (Sample.post VNull)
           {| status := 500;
              json := failure_body
                "Cannot destructure property 'animalData' of 'req.body' as it is null." |}
           eq_refl eq_refl).
Defined.

Lemma clear_reordered : Permutation MoreSamples.animals_clear Sample.animals.
Proof.
  apply Permutation_sym.
  apply (Permutation_cons_app [("gato", of_Z 15); ("tubarao", of_Z 20)] [("aguia", of_Z 55)]).
  apply (Permutation_cons_app [("gato", of_Z 15); ("tubarao", of_Z 20)] []).
  apply (Permutation_cons_app [("gato", of_Z 15)] []).
  apply Permutation_refl.
Qed.

Lemma clear_maximum entry :
  In entry MoreSamples.animals_clear ->
  entry = ("aguia", of_Z 55) \/ gt (of_Z 55) (snd entry) = true.
Proof.
  intros [<-|[<-|[<-|[<-|[]]]]]; first [left; reflexivity | right; reflexivity].
Qed.

(** X11 for 55 against 10, 20 and 15, in two enumeration orders. *)
Lemma strict_maximum_selected_witness :
  In ("aguia", of_Z 55) MoreSamples.animals_clear
  /\ gt (of_Z 55) (of_Z (-1)) = true
  /\ (forall entry, In entry MoreSamples.animals_clear ->
        entry = ("aguia", of_Z 55) \/ gt (of_Z 55) (snd entry) = true)
  /\ Permutation MoreSamples.animals_clear Sample.animals
  /\ find_highest (map number_entry Sample.animals)
     = Normal (Some "aguia", VNumber (of_Z 55)).
Proof.
  assert (Hin : In ("aguia", of_Z 55) MoreSamples.animals_clear)
    by (right; right; right; left; reflexivity).
  split; [exact Hin|]. split; [reflexivity|]. split; [exact clear_maximum|].
  split; [exact clear_reordered|].
  apply (Further.strict_maximum_selected MoreSamples.animals_clear "aguia" (of_Z 55)
           Hin eq_refl clear_maximum Sample.animals clear_reordered).
Defined.

(** X12 for an object and the same object enumerated backwards. *)
Lemma brain_runs_order_independent_witness :
  Permutation Sample.brains_extra (rev Sample.brains_extra)
  /\ brain_printable Sample.brains_extra = true
  /\ exists ctx ctx' runs runs',
       brain_canvas Sample.base_image (VObject Sample.brains_extra) = Normal ctx
       /\ brain_canvas Sample.base_image (VObject (rev Sample.brains_extra)) = Normal ctx'
       /\ painted ctx = DrawImage Sample.base_image (of_Z 0) (of_Z 0) :: runs
       /\ painted ctx' = DrawImage Sample.base_image (of_Z 0) (of_Z 0) :: runs'
       /\ Permutation runs runs'.
Proof.
  split; [apply Permutation_rev|]. split; [reflexivity|].
  apply (Further.brain_runs_order_independent Sample.base_image Sample.brains_extra
           (rev Sample.brains_extra)); [apply Permutation_rev|reflexivity].
Defined.
End FurtherChecks.
